(** * uMail for MicroPython: the SMTP session of [umailesp.py] and [umailesp32.py]

    A shallow embedding of the two SMTP clients of the repository and the
    properties of their command/response parser, bootstrap, authentication,
    envelope negotiation, body transmission and teardown.

    Modelling conventions.
    - A Python [bytes] value is a [string] of 8-bit characters, and a [str]
      is held as its UTF-8 encoding.  The SMTP alphabet is 7-bit ASCII, on
      which [encode] and [decode('utf-8', 'replace')] are the identity.  The
      strict [decode()] of umailesp32.py and of both [send] raises
      [UnicodeError] on bytes that are not well-formed UTF-8.
    - The program runs on MicroPython: white space is the six characters
      space, TAB, LF, VT, FF, CR.  [int] follows the grammar of the language
      reference (white space, sign, digits, single underscores between
      digits).
    - The socket is the text the peer has sent and the client has not read
      yet ([inbuf]); when it is exhausted the peer has closed the connection
      and reads return the empty string.
    - Everything the client does to the outside world is appended to a
      [trace]: socket writes, sleeps, TLS wraps and closes.  Calls to [print]
      only log to the console and are left out.
    - A raised Python exception is the [Raise] outcome of a computation; the
      session state reached when it was raised is kept.
    - The base64 encoder [ubinascii.b2a_base64] and the outcomes of
      [connect] and [ssl.wrap_socket] belong to the platform: the encoder is
      a parameter of [login], the two outcomes are fields of the session.

    The file has two parts: the definitions (Python strings, the session
    monad, the two modules, the vocabulary of the statements), then the
    properties. *)

From Stdlib Require Import String Ascii List ZArith Lia Bool Arith DecimalString.
Import ListNotations.
Open Scope string_scope.
Open Scope Z_scope.

(** ** Python strings *)

Module Py.

Definition CR : ascii := ascii_of_nat 13.
Definition LF : ascii := ascii_of_nat 10.
Definition NUL : ascii := ascii_of_nat 0.
Definition DQUOTE : ascii := ascii_of_nat 34.
Definition CRLF : string := String CR (String LF EmptyString).

(** [c in chars] for a character *)
Fixpoint mem_char (c : ascii) (chars : string) : bool :=
  match chars with
  | EmptyString => false
  | String d r => Ascii.eqb c d || mem_char c r
  end.

Definition isspace (c : ascii) : bool :=
  let n := nat_of_ascii c in
  (Nat.eqb n 32 || (Nat.leb 9 n && Nat.leb n 13))%bool.

Fixpoint lstrip_with (p : ascii -> bool) (s : string) : string :=
  match s with
  | EmptyString => EmptyString
  | String c r => if p c then lstrip_with p r else s
  end.

Fixpoint rstrip_with (p : ascii -> bool) (s : string) : string :=
  match s with
  | EmptyString => EmptyString
  | String c r =>
      match rstrip_with p r with
      | EmptyString => if p c then EmptyString else String c EmptyString
      | r' => String c r'
      end
  end.

(** [s.lstrip(chars)], [s.rstrip(chars)], [s.strip(chars)], [s.strip()] *)
Definition lstrip (chars s : string) : string := lstrip_with (fun c => mem_char c chars) s.
Definition rstrip (chars s : string) : string := rstrip_with (fun c => mem_char c chars) s.
Definition strip (chars s : string) : string := lstrip chars (rstrip chars s).
Definition strip_ws (s : string) : string := lstrip_with isspace (rstrip_with isspace s).

(** [s[:n]] and [s[n:]] for a non-negative literal [n] *)
Fixpoint take (n : nat) (s : string) : string :=
  match n, s with
  | S n', String c r => String c (take n' r)
  | _, _ => EmptyString
  end.

Fixpoint drop (n : nat) (s : string) : string :=
  match n, s with
  | S n', String _ r => drop n' r
  | _, _ => s
  end.

(** [s[:-1]] *)
Fixpoint drop_last (s : string) : string :=
  match s with
  | EmptyString => EmptyString
  | String c EmptyString => EmptyString
  | String c r => String c (drop_last r)
  end.

Definition is_empty (s : string) : bool :=
  match s with EmptyString => true | _ => false end.

Definition upper_char (c : ascii) : ascii :=
  let n := nat_of_ascii c in
  if (Nat.leb 97 n && Nat.leb n 122)%bool then ascii_of_nat (n - 32) else c.

Fixpoint upper (s : string) : string :=
  match s with
  | EmptyString => EmptyString
  | String c r => String (upper_char c) (upper r)
  end.

(** [s.split()]: the maximal runs of characters that are not white space *)
Fixpoint split_from (cur s : string) : list string :=
  match s with
  | EmptyString => if is_empty cur then [] else [cur]
  | String c r =>
      if isspace c
      then (if is_empty cur then split_from EmptyString r
            else cur :: split_from EmptyString r)
      else split_from (cur ++ String c EmptyString) r
  end.

Definition split (s : string) : list string := split_from EmptyString s.

(** [sep.join(l)] *)
Fixpoint join (sep : string) (l : list string) : string :=
  match l with
  | [] => EmptyString
  | [x] => x
  | x :: r => x ++ sep ++ join sep r
  end.

(** [x in l] for a list of strings *)
Fixpoint mem (x : string) (l : list string) : bool :=
  match l with
  | [] => false
  | y :: r => String.eqb x y || mem x r
  end.

(** [int(s)] in base ten: optional white space around an optional sign and
    decimal digits, where single underscores may separate digits.  [None]
    is [ValueError]. *)
Definition digit_val (c : ascii) : option Z :=
  let n := nat_of_ascii c in
  if (Nat.leb 48 n && Nat.leb n 57)%bool then Some (Z.of_nat (n - 48)) else None.

Fixpoint int_digits (s : string) (acc : Z) (after_digit : bool) : option Z :=
  match s with
  | EmptyString => if after_digit then Some acc else None
  | String c r =>
      match digit_val c with
      | Some d => int_digits r (10 * acc + d) true
      | None =>
          if (Ascii.eqb c "_" && after_digit)%bool then int_digits r acc false else None
      end
  end.

Definition int (s : string) : option Z :=
  match strip_ws s with
  | String "+" r => int_digits r 0 false
  | String "-" r => option_map Z.opp (int_digits r 0 false)
  | t => int_digits t 0 false
  end.

(** [str(n)] for an integer *)
Definition str_int (n : Z) : string := NilZero.string_of_int (Z.to_int n).

(** [repr(s)] for a string: single quotes unless the string holds a single
    quote and no double quote; backslash, the quote and control characters
    are escaped. *)
Definition hex_digit (n : nat) : ascii :=
  if Nat.ltb n 10 then ascii_of_nat (48 + n) else ascii_of_nat (87 + n).

Definition repr_char (quote c : ascii) : string :=
  let n := nat_of_ascii c in
  if (Ascii.eqb c quote || Ascii.eqb c "\")%bool then String "\" (String c EmptyString)
  else if Ascii.eqb c LF then "\n"
  else if Ascii.eqb c CR then "\r"
  else if Nat.eqb n 9 then "\t"
  else if (Nat.ltb n 32 || Nat.leb 127 n)%bool
       then String "\" (String "x" (String (hex_digit (n / 16)) (String (hex_digit (n mod 16)) EmptyString)))
  else String c EmptyString.

Fixpoint repr_body (quote : ascii) (s : string) : string :=
  match s with
  | EmptyString => EmptyString
  | String c r => repr_char quote c ++ repr_body quote r
  end.

Definition repr (s : string) : string :=
  let quote := if (mem_char "'" s && negb (mem_char DQUOTE s))%bool then DQUOTE else "'"%char in
  String quote (repr_body quote s ++ String quote EmptyString).

(** [str(l)] for a list of strings *)
Definition str_list (l : list string) : string :=
  "[" ++ join ", " (map repr l) ++ "]".

(** [range(n)] *)
Definition range (n : Z) : list Z := map Z.of_nat (seq 0 (Z.to_nat n)).

(** an optional string inside an f-string: [None] prints as its name *)
Definition str_opt (o : option string) : string :=
  match o with Some s => s | None => "None" end.

(** truth value of an optional string: [None] and the empty string are false *)
Definition truthy (o : option string) : bool :=
  match o with Some s => negb (is_empty s) | None => false end.

(** Well-formed UTF-8: the byte sequences that the strict decoder accepts.
    [need] lists the ranges of the continuation bytes still expected.
    Over-long forms, surrogates and code points beyond U+10FFFF are
    ill-formed. *)
Definition in_range (lo hi : nat) (c : ascii) : bool :=
  let n := nat_of_ascii c in (Nat.leb lo n && Nat.leb n hi)%bool.

Fixpoint utf8_scan (need : list (nat * nat)) (s : string) : bool :=
  match s with
  | EmptyString => match need with [] => true | _ => false end
  | String c r =>
      match need with
      | (lo, hi) :: more => if in_range lo hi c then utf8_scan more r else false
      | [] =>
          if in_range 0 127 c then utf8_scan [] r
          else if in_range 194 223 c then utf8_scan [(128, 191)%nat] r
          else if in_range 224 224 c then utf8_scan [(160, 191); (128, 191)]%nat r
          else if (in_range 225 236 c || in_range 238 239 c)%bool
               then utf8_scan [(128, 191); (128, 191)]%nat r
          else if in_range 237 237 c then utf8_scan [(128, 159); (128, 191)]%nat r
          else if in_range 240 240 c
               then utf8_scan [(144, 191); (128, 191); (128, 191)]%nat r
          else if in_range 241 243 c
               then utf8_scan [(128, 191); (128, 191); (128, 191)]%nat r
          else if in_range 244 244 c
               then utf8_scan [(128, 143); (128, 191); (128, 191)]%nat r
          else false
      end
  end.

Definition utf8_valid (s : string) : bool := utf8_scan [] s.

End Py.

(** ** Exceptions, the session and its effects *)

Inductive exn : Type :=
| Exception (msg : string)
| ValueError (literal : string)      (* int() of a malformed literal *)
| OSError (msg : string)             (* raised by the platform's socket or TLS layer *)
| UnicodeError (object : string).    (* decode() of bytes that are not UTF-8 *)

(** [str(e)] *)
Definition str_exn (e : exn) : string :=
  match e with
  | Exception msg => msg
  | ValueError literal => "invalid literal for int() with base 10: " ++ Py.repr literal
  | OSError msg => msg
  | UnicodeError _ => EmptyString   (* MicroPython raises it without a message *)
  end.

Inductive event : Type :=
| EvWrite (data : string)            (* sock.write(data) *)
| EvSleep (ms : Z)                   (* time.sleep, in milliseconds *)
| EvWrap                             (* ssl.wrap_socket(sock) succeeded *)
| EvClose.                           (* sock.close() *)

Record Session : Type := mkSession {
  username : option string;          (* self.username *)
  inbuf : string;                    (* sent by the peer, not read yet *)
  secured : bool;                    (* self._sock is a TLS-wrapped stream *)
  trace : list event;                (* effects so far, oldest first *)
  connect_err : option string;       (* the error sock.connect raises, if any *)
  wrap_err : option string           (* the error ssl.wrap_socket raises, if any *)
}.

Definition Reply : Type := Z * list string.

Inductive result (A : Type) : Type :=
| Ok (a : A)
| Raise (e : exn).
Arguments Ok {A} a.
Arguments Raise {A} e.

Definition M (A : Type) : Type := Session -> result A * Session.

Definition ret {A} (a : A) : M A := fun s => (Ok a, s).

Definition bind {A B} (c : M A) (k : A -> M B) : M B :=
  fun s => match c s with
           | (Ok a, s') => k a s'
           | (Raise e, s') => (Raise e, s')
           end.

Definition raise {A} (e : exn) : M A := fun s => (Raise e, s).

(** [try: c  except Exception as e: h e] *)
Definition try_except {A} (c : M A) (h : exn -> M A) : M A :=
  fun s => match c s with
           | (Ok a, s') => (Ok a, s')
           | (Raise e, s') => h e s'
           end.

Declare Scope smtp_scope.
Delimit Scope smtp_scope with smtp.
Notation "x <- c ;; k" := (bind c (fun x => k))
  (at level 61, c at next level, right associativity) : smtp_scope.
Notation "' pat <- c ;; k" := (bind c (fun x => match x with pat => k end))
  (at level 61, pat pattern, c at next level, right associativity) : smtp_scope.
Notation "c ;; k" := (bind c (fun _ => k))
  (at level 61, right associativity) : smtp_scope.
Open Scope smtp_scope.

(** The session after the effects [evs]. *)
Definition logged (evs : list event) (s : Session) : Session :=
  mkSession (username s) (inbuf s) (secured s) (trace s ++ evs)%list
            (connect_err s) (wrap_err s).

Definition log (ev : event) : M unit := fun s => (Ok tt, logged [ev] s).

Definition set_username (u : option string) : M unit :=
  fun s => (Ok tt, mkSession u (inbuf s) (secured s) (trace s) (connect_err s) (wrap_err s)).

Definition get_username : M (option string) := fun s => (Ok (username s), s).

Definition set_inbuf (b : string) (s : Session) : Session :=
  mkSession (username s) b (secured s) (trace s) (connect_err s) (wrap_err s).

(** The first line of [s], up to and including its LF, and what follows it. *)
Fixpoint split_line (s : string) : string * string :=
  match s with
  | EmptyString => (EmptyString, EmptyString)
  | String c r =>
      if Ascii.eqb c Py.LF then (String c EmptyString, r)
      else let (l, r') := split_line r in (String c l, r')
  end.

Definition sock_readline : M string :=
  fun s => let (l, r) := split_line (inbuf s) in (Ok l, set_inbuf r s).

Definition sock_read (n : nat) : M string :=
  fun s => (Ok (Py.take n (inbuf s)), set_inbuf (Py.drop n (inbuf s)) s).

Definition sock_write (data : string) : M unit := log (EvWrite data).

Definition sock_close : M unit := log EvClose.

Definition sleep (ms : Z) : M unit := log (EvSleep ms).

(** [b.decode()]: strict UTF-8 *)
Definition decode (b : string) : M string :=
  if Py.utf8_valid b then ret b else raise (UnicodeError b).

Definition sock_connect : M unit :=
  fun s => match connect_err s with
           | Some e => (Raise (OSError e), s)
           | None => (Ok tt, s)
           end.

Definition wrap_socket : M unit :=
  fun s => match wrap_err s with
           | Some e => (Raise (OSError e), s)
           | None => (Ok tt, mkSession (username s) (inbuf s) true (trace s ++ [EvWrap])
                                       (connect_err s) (wrap_err s))
           end.

(** A [while] loop whose body either goes round again or leaves with a
    value.  Every loop of the program reads from the socket before it goes
    round again, so [S (length inbuf)] rounds are always enough
    ([loop_enough_fuel] below); [None] is the loop cut short. *)
Inductive ctl (A B : Type) : Type :=
| Continue (a : A)
| Break (b : B).
Arguments Continue {A B} a.
Arguments Break {A B} b.

Fixpoint loop {A B} (fuel : nat) (body : A -> M (ctl A B)) (a : A) (s : Session)
  : option (result B * Session) :=
  match fuel with
  | O => None
  | S fuel' =>
      match body a s with
      | (Ok (Continue a'), s') => loop fuel' body a' s'
      | (Ok (Break b), s') => Some (Ok b, s')
      | (Raise e, s') => Some (Raise e, s')
      end
  end.

Definition while {A B} (body : A -> M (ctl A B)) (a : A) : M B :=
  fun s => match loop (S (String.length (inbuf s))) body a s with
           | Some r => r
           | None => (Raise (Exception "loop cut short"), s)
           end.

(** Constants of both files *)
Definition LOCAL_DOMAIN : string := "127.0.0.1".
Definition CMD_EHLO : string := "EHLO".
Definition CMD_STARTTLS : string := "STARTTLS".
Definition CMD_AUTH : string := "AUTH".
Definition CMD_MAIL : string := "MAIL".
Definition AUTH_PLAIN : string := "PLAIN".
Definition AUTH_LOGIN : string := "LOGIN".

(** [addrs] is a string or a list of strings *)
Inductive addrs_arg : Type :=
| AddrStr (addr : string)
| AddrList (addrs : list string).

(** ** What the two files share word for word: [login]'s feature scan, [to], [quit] *)

Module Common.

(** [auths = None; for feature in resp: if feature[:4].upper() == CMD_AUTH:
    auths = feature[4:].strip('=').upper().split()] *)
Definition scan_auths (resp : list string) : option (list string) :=
  fold_left
    (fun auths feature =>
       if String.eqb (Py.upper (Py.take 4 feature)) CMD_AUTH
       then Some (Py.split (Py.upper (Py.strip "=" (Py.drop 4 feature))))
       else auths)
    resp None.

Section WithCmd.

Variable cmd : string -> M Reply.

(** [for addr in addrs: code, resp = self.cmd(...); if code not in (250, 251): count += 1] *)
Fixpoint rcpt_loop (addrs : list string) (count : Z) (code : Z) (resp : list string)
  : M (Z * Z * list string) :=
  match addrs with
  | [] => ret (count, code, resp)
  | addr :: rest =>
      '(code, resp) <- cmd ("RCPT TO: <" ++ addr ++ ">") ;;
      let count := if negb (code =? 250) && negb (code =? 251) then count + 1 else count in
      rcpt_loop rest count code resp
  end.

(** The body of the [try] block of [to].  [addrs = [addrs]] is idempotent, so
    it is the same whether an earlier attempt already did it. *)
Definition to_attempt (mail_from : string) (addrs : addrs_arg) : M Reply :=
  '(code, resp) <- cmd ("MAIL FROM: <" ++ mail_from ++ ">") ;;
  if negb (code =? 250)
  then raise (Exception ("Sender refused: " ++ Py.str_int code ++ ", " ++ Py.str_list resp))
  else
    let addrs := match addrs with AddrStr a => [a] | AddrList l => l end in
    let count := 0 in
    '(count, code, resp) <- rcpt_loop addrs count code resp ;;
    if count =? Z.of_nat (List.length addrs)
    then raise (Exception ("All recipients refused: " ++ Py.str_int code ++ ", " ++ Py.str_list resp))
    else
      '(code, resp) <- cmd "DATA" ;;
      if negb (code =? 354)
      then raise (Exception ("Data refused: " ++ Py.str_int code ++ ", " ++ Py.str_list resp))
      else ret (code, resp).

(** [for attempt in attempts: try: ... return code, resp
    except Exception as e: if attempt < retries - 1: time.sleep(5) else: raise e];
    falling off the end of the loop returns [None]. *)
Fixpoint to_loop (mail_from : string) (addrs : addrs_arg) (retries : Z) (attempts : list Z)
  : M (option Reply) :=
  match attempts with
  | [] => ret None
  | attempt :: rest =>
      try_except
        (r <- to_attempt mail_from addrs ;; ret (Some r))
        (fun e =>
           if attempt <? retries - 1
           then sleep 5000 ;; to_loop mail_from addrs retries rest
           else raise e)
  end.

Definition to (addrs : addrs_arg) (mail_from : option string) (retries : Z)
  : M (option Reply) :=
  self_username <- get_username ;;
  let mail_from := match mail_from with None => self_username | Some _ => mail_from end in
  to_loop (Py.str_opt mail_from) addrs retries (Py.range retries).

Definition quit : M unit :=
  try_except (_ <- cmd "QUIT" ;; ret tt) (fun e => ret tt) ;;
  sock_close.

End WithCmd.

End Common.

(** ** umailesp.py *)

Module Umailesp.

(** One round of the [while True] loop of [cmd]: [Break] is the [break]
    followed by [return code, all_lines]. *)
Definition cmd_body (cmd_str : string) (all_lines : list string)
  : M (ctl (list string) Reply) :=
  line <- sock_readline ;;
  if Py.is_empty line
  then raise (Exception ("No response from server for '" ++ cmd_str
                         ++ "' (connection closed?)."))
  else
    let line_str := Py.rstrip Py.CRLF line in
    if (String.length line_str <? 3)%nat
    then raise (Exception ("Invalid SMTP response line for '" ++ cmd_str ++ "': " ++ line_str))
    else
      match Py.int (Py.take 3 line_str) with
      | None => raise (Exception ("Invalid SMTP response code for '" ++ cmd_str ++ "': "
                                  ++ Py.repr (Py.take 3 line_str)))
      | Some code =>
          let text_after_code := Py.lstrip "- " (Py.drop 3 line_str) in
          let all_lines := (all_lines ++ [text_after_code])%list in
          if ((String.length line_str <? 4)%nat
              || negb (match String.get 3 line_str with
                       | Some c => Ascii.eqb c "-"
                       | None => false
                       end))%bool
          then ret (Break (code, all_lines))
          else ret (Continue all_lines)
      end.

Definition cmd (cmd_str : string) : M Reply :=
  (if negb (String.eqb cmd_str "Initial greeting")
   then sock_write (cmd_str ++ Py.CRLF) ;; sleep 300
   else ret tt) ;;
  while (cmd_body cmd_str) [].

Definition to := Common.to cmd.

Definition write (content : string) : M unit := sock_write content.

Definition send (content : string) (mime : bool) : M (Z * string) :=
  (if mime
   then write ("MIME-Version: 1.0" ++ Py.CRLF
               ++ "Content-Type: text/plain; charset=UTF-8" ++ Py.CRLF) ;;
        write Py.CRLF
   else ret tt) ;;
  (if negb (Py.is_empty content) then write content else ret tt) ;;
  sock_write (Py.CRLF ++ "." ++ Py.CRLF) ;;
  sleep 100 ;;
  raw <- sock_readline ;;
  line <- decode (Py.strip_ws raw) ;;
  if Py.is_empty line
  then raise (Exception "No SMTP send response")
  else
    match Py.int (Py.take 3 line) with
    | None => raise (ValueError (Py.take 3 line))
    | Some code => ret (code, Py.drop 4 line)
    end.

Definition quit := Common.quit cmd.

Section WithBase64.

(** [ubinascii.b2a_base64], the platform's encoder.  Its output is base64
    text, which [decode()] returns as it is. *)
Variable b64 : string -> string.

Definition login (username password : string) : M Reply :=
  set_username (Some username) ;;
  '(code, resp) <- cmd (CMD_EHLO ++ " " ++ LOCAL_DOMAIN) ;;
  if negb (code =? 250)
  then raise (Exception ("EHLO failed: " ++ Py.str_int code ++ ", " ++ Py.str_list resp))
  else
    match Common.scan_auths resp with
    | None | Some [] => raise (Exception "No auth methods available")
    | Some auths =>
        '(code, resp) <-
          (if Py.mem AUTH_PLAIN auths
           then
             let cren := Py.strip_ws (b64 (String Py.NUL username ++ String Py.NUL password)) in
             cmd (CMD_AUTH ++ " " ++ AUTH_PLAIN ++ " " ++ cren)
           else if Py.mem AUTH_LOGIN auths
           then
             '(code, resp) <- cmd (CMD_AUTH ++ " " ++ AUTH_LOGIN) ;;
             if negb (code =? 334)
             then raise (Exception ("Username prompt failed: " ++ Py.str_int code ++ ", "
                                    ++ Py.str_list resp))
             else
               '(code, resp) <- cmd (Py.strip_ws (b64 username)) ;;
               if negb (code =? 334)
               then raise (Exception ("Username failed: " ++ Py.str_int code ++ ", "
                                      ++ Py.str_list resp))
               else cmd (Py.strip_ws (b64 password))
           else raise (Exception ("Auth methods not supported: " ++ Py.join ", " auths))) ;;
        if negb ((code =? 235) || (code =? 503))
        then raise (Exception ("Auth failed: " ++ Py.str_int code ++ ", " ++ Py.str_list resp))
        else ret (code, resp)
    end.

(** The constructor.  Creating the socket, [settimeout] and [getaddrinfo]
    leave no mark on the session; both [hasattr] checks hold of the
    platform's sockets. *)
Definition __init__ (host : string) (port : Z) (use_ssl : bool)
    (username password : option string) (timeout : Z) : M unit :=
  set_username username ;;
  try_except sock_connect
    (fun e => raise (Exception ("Connect failed: " ++ str_exn e))) ;;
  (if use_ssl
   then try_except wrap_socket
          (fun e => raise (Exception ("SSL wrap failed: " ++ str_exn e)))
   else ret tt) ;;
  greeting <- sock_readline ;;
  if Py.is_empty greeting
  then raise (Exception "No initial greeting received from server")
  else
    let greeting_str := Py.rstrip Py.CRLF greeting in
    match Py.int (Py.take 3 greeting_str) with
    | None => raise (ValueError (Py.take 3 greeting_str))
    | Some code =>
        if negb (code =? 220)
        then raise (Exception ("SMTP connect failed: " ++ Py.str_int code))
        else
          '(code, resp) <- cmd (CMD_EHLO ++ " " ++ LOCAL_DOMAIN) ;;
          if negb (code =? 250)
          then raise (Exception ("EHLO failed: " ++ Py.str_int code ++ ", " ++ Py.str_list resp))
          else
            (if (negb use_ssl && Py.mem CMD_STARTTLS resp)%bool
             then
               '(code, resp) <- cmd CMD_STARTTLS ;;
               if negb (code =? 220)
               then raise (Exception ("STARTTLS failed: " ++ Py.str_int code ++ ", "
                                      ++ Py.str_list resp))
               else
                 sleep 1000 ;;
                 try_except wrap_socket
                   (fun e => raise (Exception ("STARTTLS SSL wrap failed: " ++ str_exn e))) ;;
                 '(code, resp) <- cmd (CMD_EHLO ++ " " ++ LOCAL_DOMAIN) ;;
                 if negb (code =? 250)
                 then raise (Exception ("EHLO after STARTTLS failed: " ++ Py.str_int code
                                        ++ ", " ++ Py.str_list resp))
                 else ret tt
             else ret tt) ;;
            match username, password with
            | Some u, Some p =>
                if (Py.truthy username && Py.truthy password)%bool
                then _ <- login u p ;; ret tt
                else ret tt
            | _, _ => ret tt
            end
    end.

End WithBase64.

End Umailesp.

(** ** umailesp32.py *)

Module Umailesp32.

(** One round of [while sock.read(1) == b'-': resp += ' ' + ...] *)
Definition cmd_body (resp : string) : M (ctl string string) :=
  b <- sock_read 1 ;;
  if String.eqb b "-"
  then line <- sock_readline ;;
       text <- decode (Py.strip_ws line) ;;
       ret (Continue (resp ++ " " ++ text))
  else ret (Break resp).

Definition cmd (cmd_str : string) : M Reply :=
  sock_write (cmd_str ++ Py.CRLF) ;;
  code <- sock_read 3 ;;
  if Py.is_empty code
  then raise (Exception "No SMTP response")
  else
    match Py.int code with
    | None => raise (ValueError code)
    | Some code =>
        line <- sock_readline ;;
        resp <- decode (Py.strip_ws line) ;;
        resp <- while cmd_body resp ;;
        ret (code, [resp])
    end.

Definition to := Common.to cmd.

Definition write (content : string) : M unit := sock_write content.

Definition send (content : string) (mime : bool) : M (Z * string) :=
  (if mime
   then write ("MIME-Version: 1.0" ++ Py.CRLF
               ++ "Content-Type: text/plain; charset=UTF-8" ++ Py.CRLF)
   else ret tt) ;;
  (if negb (Py.is_empty content) then write content else ret tt) ;;
  sock_write (Py.CRLF ++ "." ++ Py.CRLF) ;;
  line <- sock_readline ;;
  if Py.is_empty line
  then raise (Exception "No SMTP send response")
  else
    match Py.int (Py.take 3 line) with
    | None => raise (ValueError (Py.take 3 line))
    | Some code => resp <- decode (Py.strip_ws (Py.drop 4 line)) ;; ret (code, resp)
    end.

Definition quit := Common.quit cmd.

Section WithBase64.

Variable b64 : string -> string.

Definition login (username password : string) : M Reply :=
  set_username (Some username) ;;
  '(code, resp) <- cmd (CMD_EHLO ++ " " ++ LOCAL_DOMAIN) ;;
  if negb (code =? 250)
  then raise (Exception ("EHLO failed: " ++ Py.str_int code ++ ", " ++ Py.str_list resp))
  else
    match Common.scan_auths resp with
    | None | Some [] => raise (Exception "No auth methods available")
    | Some auths =>
        '(code, resp) <-
          (if Py.mem AUTH_PLAIN auths
           then
             let cren := Py.drop_last (b64 (String Py.NUL username ++ String Py.NUL password)) in
             cmd (CMD_AUTH ++ " " ++ AUTH_PLAIN ++ " " ++ cren)
           else if Py.mem AUTH_LOGIN auths
           then
             '(code, resp) <- cmd (CMD_AUTH ++ " " ++ AUTH_LOGIN ++ " "
                                   ++ Py.drop_last (b64 username)) ;;
             if negb (code =? 334)
             then raise (Exception ("Username failed: " ++ Py.str_int code ++ ", "
                                    ++ Py.str_list resp))
             else cmd (Py.drop_last (b64 password))
           else raise (Exception ("Auth methods not supported: " ++ Py.join ", " auths))) ;;
        if negb ((code =? 235) || (code =? 503))
        then raise (Exception ("Auth failed: " ++ Py.str_int code ++ ", " ++ Py.str_list resp))
        else ret (code, resp)
    end.

(** The constructor.  Its first statement, [import ssl], binds the local
    name [ssl], which is the parameter of that name, to the module object;
    a module object is true. *)
Definition __init__ (host : string) (port : Z) (ssl : bool)
    (username password : option string) (timeout : Z) : M unit :=
  let ssl := true in
  set_username username ;;
  try_except sock_connect
    (fun e => raise (Exception ("Connect failed: " ++ str_exn e))) ;;
  (if ssl then wrap_socket else ret tt) ;;
  code <- sock_read 3 ;;
  match Py.int code with
  | None => raise (ValueError code)
  | Some code =>
      _ <- sock_readline ;;
      if negb (code =? 220)
      then raise (Exception ("SMTP connect failed: " ++ Py.str_int code))
      else
        '(code, resp) <- cmd (CMD_EHLO ++ " " ++ LOCAL_DOMAIN) ;;
        if negb (code =? 250)
        then raise (Exception ("EHLO failed: " ++ Py.str_int code ++ ", " ++ Py.str_list resp))
        else
          (if (negb ssl && Py.mem CMD_STARTTLS resp)%bool
           then
             '(code, resp) <- cmd CMD_STARTTLS ;;
             if negb (code =? 220)
             then raise (Exception ("STARTTLS failed: " ++ Py.str_int code ++ ", "
                                    ++ Py.str_list resp))
             else wrap_socket
           else ret tt) ;;
          match username, password with
          | Some u, Some p =>
              if (Py.truthy username && Py.truthy password)%bool
              then _ <- login u p ;; ret tt
              else ret tt
          | _, _ => ret tt
          end
  end.

End WithBase64.

End Umailesp32.

(** An untouched session talking to a peer that sends [data] and closes. *)
Definition fresh (data : string) : Session :=
  mkSession None data false [] None None.

(** ** Vocabulary of the statements *)

(** The session differs from [s] at most in what is left to read. *)
Definition only_read (s s' : Session) : Prop := s' = set_inbuf (inbuf s') s.

(** The data of the socket writes of a trace, oldest first. *)
Fixpoint writes (tr : list event) : list string :=
  match tr with
  | [] => []
  | EvWrite d :: r => d :: writes r
  | _ :: r => writes r
  end.

(** The bytes a trace put on the wire. *)
Definition wire (tr : list event) : string := String.concat EmptyString (writes tr).

Definition event_eqb (a b : event) : bool :=
  match a, b with
  | EvWrite x, EvWrite y => String.eqb x y
  | EvSleep x, EvSleep y => Z.eqb x y
  | EvWrap, EvWrap => true
  | EvClose, EvClose => true
  | _, _ => false
  end.

(** How often the event [ev] occurs in a trace. *)
Fixpoint count (ev : event) (tr : list event) : nat :=
  match tr with
  | [] => O
  | e :: r => if event_eqb ev e then S (count ev r) else count ev r
  end.

Definition is_digit (c : ascii) : bool :=
  match Py.digit_val c with Some _ => true | None => false end.

(** A three-digit status code as it stands on the wire, and its value. *)
Definition is_code (code : string) : bool :=
  match code with
  | String a (String b (String c EmptyString)) => is_digit a && is_digit b && is_digit c
  | _ => false
  end.

Definition digit_of (c : ascii) : Z := Z.of_nat (nat_of_ascii c - 48).

Definition code_value (code : string) : Z :=
  match code with
  | String a (String b (String c EmptyString)) =>
      100 * digit_of a + 10 * digit_of b + digit_of c
  | _ => 0
  end.

(** Text that can stand on one protocol line: it holds no LF. *)
Definition one_line (text : string) : bool := negb (Py.mem_char Py.LF text).

(** The text of a line as [umailesp.cmd] stores it: trailing CR and LF and
    leading dashes and spaces are gone. *)
Definition stored (text : string) : string := Py.lstrip "- " (Py.rstrip Py.CRLF text).

Definition first_is (p : ascii -> bool) (s : string) : bool :=
  match s with
  | EmptyString => false
  | String c _ => p c
  end.

Fixpoint last_is (p : ascii -> bool) (s : string) : bool :=
  match s with
  | EmptyString => false
  | String c EmptyString => p c
  | String _ r => last_is p r
  end.


(** A continuation line [code-text] and the final line [code text] of a
    reply, as they stand on the wire. *)
Definition continuation_line (ct : string * string) : string :=
  fst ct ++ String "-" (snd ct ++ Py.CRLF).

Definition final_line (code text : string) : string :=
  code ++ String " " (text ++ Py.CRLF).

(** A reply of [length conts] continuation lines and a final line. *)
Definition reply_wire (conts : list (string * string)) (code text : string) : string :=
  String.concat EmptyString (map continuation_line conts) ++ final_line code text.

Definition well_formed (ct : string * string) : bool :=
  is_code (fst ct) && one_line (snd ct).

(** The EHLO reply of a server that offers STARTTLS and two mechanisms. *)
Definition ehlo_reply : string :=
  reply_wire [("250", "STARTTLS")] "250" "AUTH PLAIN LOGIN".

(** The sender [to] puts in MAIL FROM, and the recipients it goes through. *)
Definition sender (mail_from : option string) (s : Session) : string :=
  Py.str_opt (match mail_from with None => username s | Some _ => mail_from end).

Definition recipients (addrs : addrs_arg) : list string :=
  match addrs with AddrStr a => [a] | AddrList l => l end.

(** A recipient is accepted with 250 or 251. *)
Definition accepted (code : Z) : bool := (code =? 250) || (code =? 251).

Definition is_all_refused (e : exn) : bool :=
  match e with
  | Exception msg => String.prefix "All recipients refused" msg
  | _ => false
  end.

Section Observers.

Variable cmd : string -> M Reply.

(** [failed_attempts from addrs n s = Some (e, s')]: starting in [s], [n + 1]
    attempts of the MAIL FROM / RCPT TO / DATA sequence in a row raise, with
    the back-off sleep between them; the last one raises [e] and leaves the
    session [s']. *)
Fixpoint failed_attempts (mail_from : string) (addrs : addrs_arg) (n : nat) (s : Session)
  : option (exn * Session) :=
  match Common.to_attempt cmd mail_from addrs s with
  | (Ok _, _) => None
  | (Raise e, s1) =>
      match n with
      | O => Some (e, s1)
      | S n' => failed_attempts mail_from addrs n' (logged [EvSleep 5000] s1)
      end
  end.

(** The status codes of the replies to RCPT TO for each address in turn,
    when every one of these exchanges yields a reply. *)
Fixpoint rcpt_codes (addrs : list string) (s : Session) : option (list Z * Session) :=
  match addrs with
  | [] => Some ([], s)
  | addr :: rest =>
      match cmd ("RCPT TO: <" ++ addr ++ ">") s with
      | (Ok (code, _), s1) =>
          match rcpt_codes rest s1 with
          | Some (codes, s2) => Some (code :: codes, s2)
          | None => None
          end
      | (Raise _, _) => None
      end
  end.

End Observers.

(** What [umailesp.cmd] logs for the command [c]. *)
Definition esp_cmd_events (c : string) : list event :=
  if String.eqb c "Initial greeting" then [] else [EvWrite (c ++ Py.CRLF); EvSleep 300].

(** The write of MAIL FROM, which marks the start of an attempt of [to]. *)
Definition mail_event (mail_from : string) : event :=
  EvWrite (("MAIL FROM: <" ++ mail_from ++ ">") ++ Py.CRLF).

(** How many of the codes are refusals. *)
Definition refusals (codes : list Z) : Z :=
  Z.of_nat (List.length (filter (fun c => negb (accepted c)) codes)).

(** The two lines of the MIME preamble of [send]. *)
Definition mime_preamble : list string :=
  ["MIME-Version: 1.0"; "Content-Type: text/plain; charset=UTF-8"].

Definition data_terminator : string := Py.CRLF ++ "." ++ Py.CRLF.

(** A server that accepts the sender and refuses the recipient, twice over. *)
Definition refusing_server : string :=
  final_line "250" "OK" ++ final_line "550" "no such user"
  ++ final_line "250" "OK" ++ final_line "550" "no such user".

(** A server that accepts the sender and the first of two recipients, and
    answers DATA with 354. *)
Definition mixed_server : string :=
  final_line "250" "OK" ++ final_line "250" "OK" ++ final_line "550" "no such user"
  ++ final_line "354" "go ahead".

(** A command line that [umailesp.cmd] writes: any but the words that stand
    for the greeting. *)
Definition is_command (c : string) : bool := negb (String.eqb c "Initial greeting").

Definition ehlo_command : string := CMD_EHLO ++ " " ++ LOCAL_DOMAIN.

(** The session once [login] has stored the user name. *)
Definition with_user (u : string) (s : Session) : Session :=
  mkSession (Some u) (inbuf s) (secured s) (trace s) (connect_err s) (wrap_err s).

(** What each file sends to authenticate: the single command of PLAIN and
    the commands of the LOGIN exchange. *)
Definition esp_plain_command (b64 : string -> string) (u p : string) : string :=
  "AUTH PLAIN " ++ Py.strip_ws (b64 (String Py.NUL u ++ String Py.NUL p)).


Definition esp32_plain_command (b64 : string -> string) (u p : string) : string :=
  "AUTH PLAIN " ++ Py.drop_last (b64 (String Py.NUL u ++ String Py.NUL p)).




(** A stand-in for the platform's encoder in the examples: it answers every
    input with the same encoded line. *)
Definition toy_b64 (_ : string) : string := "dXNlcg==" ++ String Py.LF EmptyString.

(** A server that offers PLAIN and LOGIN and accepts the credentials. *)
Definition auth_server : string :=
  final_line "250" "AUTH PLAIN LOGIN" ++ final_line "235" "Accepted".

(** The session once the constructor has stored the user name it was given. *)
Definition with_username (u : option string) (s : Session) : Session :=
  mkSession u (inbuf s) (secured s) (trace s) (connect_err s) (wrap_err s).

(** [s'] comes after [s]: the trace has grown, and the stream is secured
    as before. *)
Definition grows (s s' : Session) : Prop :=
  secured s' = secured s /\ wrap_err s' = wrap_err s
  /\ exists evs, trace s' = (trace s ++ evs)%list.

(** The server of the bootstrap scenario: greeting, EHLO reply offering
    STARTTLS, the go-ahead for TLS, the EHLO reply after the upgrade, the EHLO
    reply to [login] and the acceptance of the credentials. *)
Definition starttls_server : string :=
  final_line "220" "mail.example.com ESMTP"
  ++ ehlo_reply ++ final_line "220" "Ready to start TLS"
  ++ ehlo_reply ++ ehlo_reply ++ final_line "235" "Accepted".

(** A server that greets, offers STARTTLS as its only feature and would
    give the go-ahead for TLS. *)
Definition plain_starttls_server : string :=
  final_line "220" "mail.example.com ESMTP"
  ++ final_line "250" "STARTTLS" ++ final_line "220" "Ready to start TLS".

(** The session once [wrap_socket] has replaced the stream. *)
Definition upgraded (s : Session) : Session :=
  mkSession (username s) (inbuf s) true (trace s ++ [EvWrap])%list
            (connect_err s) (wrap_err s).

(** ** Vocabulary of the further properties *)




(** Text without white space at either end. *)
Definition trimmed (text : string) : bool :=
  negb (first_is Py.isspace text) && negb (last_is Py.isspace text).

(** A feature line that [login] takes for the AUTH feature, and the
    mechanisms it reads from it. *)
Definition is_auth_feature (feature : string) : bool :=
  String.eqb (Py.upper (Py.take 4 feature)) CMD_AUTH.

Definition mechanisms (feature : string) : list string :=
  Py.split (Py.upper (Py.strip "=" (Py.drop 4 feature))).

(** The mechanism set that the lines of an EHLO reply advertise to [login]:
    the mechanisms of the last line that is an AUTH feature, and nothing
    when no line is. *)
Definition advertised (lines : list string) : option (list string) :=
  option_map mechanisms (find is_auth_feature (rev lines)).



(** The command lines of one attempt of [to], in the order of the protocol. *)
Definition rcpt_line (addr : string) : string := ("RCPT TO: <" ++ addr ++ ">") ++ Py.CRLF.

Definition mail_line (mail_from : string) : string :=
  ("MAIL FROM: <" ++ mail_from ++ ">") ++ Py.CRLF.

Definition data_line : string := "DATA" ++ Py.CRLF.

Definition attempt_lines (mail_from : string) (addrs : list string) : list string :=
  mail_line mail_from :: (map rcpt_line addrs ++ [data_line])%list.

(** A server that is busy at first and then accepts sender, recipient and
    DATA; and the same for a client that reads one byte too many after each
    reply. *)
Definition busy_then_ok_tail : string :=
  final_line "250" "OK" ++ final_line "250" "OK" ++ final_line "354" "go ahead".

Definition busy_then_ok_server : string := final_line "421" "Busy" ++ busy_then_ok_tail.

Definition busy_then_ok_tail32 : string :=
  final_line "250" "OK" ++ "x" ++ final_line "250" "OK" ++ "x" ++ final_line "354" "go ahead".

Definition busy_then_ok_server32 : string :=
  final_line "421" "Busy" ++ "x" ++ busy_then_ok_tail32.

(** What [send] puts on the wire in each file. *)
Definition preamble_wire : string :=
  String.concat EmptyString (map (fun l => l ++ Py.CRLF) mime_preamble).

Definition esp_send_wire (content : string) (mime : bool) : string :=
  (if mime then preamble_wire ++ Py.CRLF else EmptyString) ++ content ++ data_terminator.

Definition esp32_send_wire (content : string) (mime : bool) : string :=
  (if mime then preamble_wire else EmptyString) ++ content ++ data_terminator.

(** The effects of [send] in each file, whatever the reply. *)
Definition esp_send_events (content : string) (mime : bool) : list event :=
  ((if mime
    then [EvWrite ("MIME-Version: 1.0" ++ Py.CRLF
                   ++ "Content-Type: text/plain; charset=UTF-8" ++ Py.CRLF);
          EvWrite Py.CRLF]
    else [])
   ++ (if Py.is_empty content then [] else [EvWrite content])
   ++ [EvWrite data_terminator; EvSleep 100])%list.

Definition esp32_send_events (content : string) (mime : bool) : list event :=
  ((if mime
    then [EvWrite ("MIME-Version: 1.0" ++ Py.CRLF
                   ++ "Content-Type: text/plain; charset=UTF-8" ++ Py.CRLF)]
    else [])
   ++ (if Py.is_empty content then [] else [EvWrite content])
   ++ [EvWrite data_terminator])%list.


(** [s'] comes after [s] with no TLS wrap in between: the stream is secured
    as before and the events added to the trace hold no wrap. *)
Definition no_wrap (s s' : Session) : Prop :=
  secured s' = secured s
  /\ exists evs, trace s' = (trace s ++ evs)%list /\ ~ In EvWrap evs.

(** A computation that never wraps the socket. *)
Definition keeps {A} (c : M A) : Prop :=
  forall s r s', c s = (r, s') -> no_wrap s s'.


(** A server without STARTTLS: greeting, the EHLO reply to the constructor,
    the EHLO reply to [login], the acceptance of the credentials. *)
Definition plain_auth_server : string :=
  final_line "220" "mail.example.com ESMTP" ++ final_line "250" "AUTH PLAIN LOGIN"
  ++ auth_server.

(** * Properties *)

(** ** The string primitives on examples *)

Example int_250 : Py.int "250" = Some 250. Proof. reflexivity. Qed.
Example int_sp : Py.int " 25" = Some 25. Proof. reflexivity. Qed.
Example int_neg : Py.int "-25" = Some (-25). Proof. reflexivity. Qed.
Example int_us : Py.int "1_2" = Some 12. Proof. reflexivity. Qed.
Example int_bad : Py.int "25x" = None. Proof. reflexivity. Qed.
Example str_int_ex : Py.str_int 250 = "250" /\ Py.str_int 0 = "0" /\ Py.str_int (-5) = "-5". Proof. repeat split. Qed.
Example split_ex : Py.split " PLAIN  LOGIN " = ["PLAIN"; "LOGIN"]. Proof. reflexivity. Qed.
Example rstrip_ex : Py.rstrip Py.CRLF ("250 ok" ++ Py.CRLF) = "250 ok". Proof. reflexivity. Qed.
Example lstrip_ex : Py.lstrip "- " "- -x- " = "x- ". Proof. reflexivity. Qed.
Example repr_ex : Py.str_list ["a"; "b'c"] = "['a', " ++ String Py.DQUOTE ("b'c" ++ String Py.DQUOTE "]"). Proof. reflexivity. Qed.
Example range_ex : Py.range 3 = [0; 1; 2] /\ Py.range (-2) = []. Proof. split; reflexivity. Qed.


(** Well-formed and ill-formed UTF-8: e-acute and the euro sign in UTF-8;
    a lone Latin-1 byte, an over-long NUL, a surrogate, a code point beyond
    U+10FFFF and a sequence cut short. *)
Example utf8_ex :
  Py.utf8_valid ("caf" ++ String (ascii_of_nat 195) (String (ascii_of_nat 169) EmptyString))
  = true
  /\ Py.utf8_valid (String (ascii_of_nat 226) (String (ascii_of_nat 130)
                      (String (ascii_of_nat 172) EmptyString))) = true
  /\ Py.utf8_valid ("caf" ++ String (ascii_of_nat 233) EmptyString) = false
  /\ Py.utf8_valid (String (ascii_of_nat 192) (String (ascii_of_nat 128) EmptyString)) = false
  /\ Py.utf8_valid (String (ascii_of_nat 237) (String (ascii_of_nat 160)
                      (String (ascii_of_nat 128) EmptyString))) = false
  /\ Py.utf8_valid (String (ascii_of_nat 244) (String (ascii_of_nat 144)
                      (String (ascii_of_nat 128) (String (ascii_of_nat 128) EmptyString))))
     = false
  /\ Py.utf8_valid (String (ascii_of_nat 226) (String (ascii_of_nat 130) EmptyString)) = false.
Proof. repeat split; vm_compute; reflexivity. Qed.
(** ** Strings *)

#[local] Arguments Ascii.eqb : simpl never.

Lemma str_length_app (a b : string) :
  String.length (a ++ b) = (String.length a + String.length b)%nat.
Proof. induction a as [|c a IH]; simpl; [reflexivity | now rewrite IH]. Qed.

Lemma str_app_assoc (a b c : string) : (a ++ b) ++ c = a ++ (b ++ c).
Proof. induction a as [|x a IH]; simpl; [reflexivity | now rewrite IH]. Qed.

Lemma str_app_empty_r (a : string) : a ++ EmptyString = a.
Proof. induction a as [|x a IH]; simpl; [reflexivity | now rewrite IH]. Qed.

Lemma split_line_app s : fst (split_line s) ++ snd (split_line s) = s.
Proof.
  induction s as [|c s IH]; simpl; [reflexivity|].
  destruct (Ascii.eqb c Py.LF); simpl; [reflexivity|].
  destruct (split_line s) as [l r]; simpl in *. now rewrite IH.
Qed.

Lemma split_line_length s :
  String.length s
  = (String.length (fst (split_line s)) + String.length (snd (split_line s)))%nat.
Proof. rewrite <- str_length_app, split_line_app. reflexivity. Qed.

(** A line that ends with the first LF of the input is read whole. *)
Lemma split_line_one_line text rest :
  one_line text = true ->
  split_line (text ++ String Py.LF rest) = (text ++ String Py.LF EmptyString, rest).
Proof.
  unfold one_line. induction text as [|c t IH]; simpl; intros H.
  - reflexivity.
  - rewrite negb_orb in H. apply andb_true_iff in H as [Hc Ht].
    rewrite Ascii.eqb_sym in Hc. apply negb_true_iff in Hc. rewrite Hc.
    now rewrite (IH Ht).
Qed.

(** ** The monad and the loop *)

Lemma loop_more_fuel {A B} (body : A -> M (ctl A B)) fuel :
  forall fuel' a s r,
    loop fuel body a s = Some r -> (fuel <= fuel')%nat -> loop fuel' body a s = Some r.
Proof.
  induction fuel as [|fuel IH]; intros fuel' a s r H Hle; [discriminate|].
  destruct fuel' as [|fuel']; [lia|]. simpl in *.
  destruct (body a s) as [[[a'|b]|e] s']; try assumption.
  apply (IH fuel'); [assumption | lia].
Qed.

Section Loop.

Context {A B : Type} (body : A -> M (ctl A B)).

(** Going round again costs input. *)
Hypothesis body_reads :
  forall a s a' s', body a s = (Ok (Continue a'), s') ->
    (String.length (inbuf s') < String.length (inbuf s))%nat.

Lemma loop_enough_fuel fuel :
  forall a s, (String.length (inbuf s) < fuel)%nat ->
    exists r, loop fuel body a s = Some r.
Proof.
  induction fuel as [|fuel IH]; intros a s Hlt; [lia|]. simpl.
  destruct (body a s) as [[[a'|b]|e] s'] eqn:E; eauto.
  apply IH. apply body_reads in E. lia.
Qed.

(** The loop never stops for lack of fuel: [while] unfolds like the
    source's loop. *)
Lemma while_unfold a s :
  while body a s =
  match body a s with
  | (Ok (Continue a'), s') => while body a' s'
  | (Ok (Break b), s') => (Ok b, s')
  | (Raise e, s') => (Raise e, s')
  end.
Proof.
  unfold while at 1. simpl.
  destruct (body a s) as [[[a'|b]|e] s'] eqn:E; try reflexivity.
  pose proof (body_reads _ _ _ _ E) as Hlt.
  destruct (loop_enough_fuel (S (String.length (inbuf s'))) a' s') as [r Hr]; [lia|].
  unfold while. rewrite Hr.
  now rewrite (loop_more_fuel body _ (String.length (inbuf s)) _ _ _ Hr) by lia.
Qed.

(** A property of the session that every round keeps is kept by the loop,
    and what holds of every way out of a round holds of the loop's outcome. *)
Lemma while_invariant (P : Session -> Prop) (Q : result B -> Prop) :
  (forall a s r s', P s -> body a s = (r, s') ->
     P s' /\ match r with
             | Ok (Continue _) => True
             | Ok (Break b) => Q (Ok b)
             | Raise e => Q (Raise e)
             end) ->
  forall a s r s', P s -> while body a s = (r, s') -> P s' /\ Q r.
Proof.
  intros HP a s. remember (String.length (inbuf s)) as n eqn:Hn.
  revert a s Hn. induction n as [n IH] using lt_wf_ind. intros a s Hn r s' Ps.
  rewrite while_unfold.
  destruct (body a s) as [[[a'|b]|e] s1] eqn:E; intros H.
  - eapply (IH (String.length (inbuf s1))); eauto.
    + subst n. eapply body_reads; eauto.
    + eapply HP; eauto.
  - inversion H; subst. apply (HP _ _ _ _ Ps E).
  - inversion H; subst. apply (HP _ _ _ _ Ps E).
Qed.

End Loop.

Lemma rstrip_with_keep p c r :
  p c = false -> Py.rstrip_with p (String c r) = String c (Py.rstrip_with p r).
Proof. intros H. simpl. rewrite H. now destruct (Py.rstrip_with p r). Qed.

Lemma rstrip_with_all p u :
  (forall c, Py.mem_char c u = true -> p c = true) ->
  Py.rstrip_with p u = EmptyString.
Proof.
  induction u as [|c u IH]; intros H; simpl; [reflexivity|].
  rewrite IH.
  - rewrite (H c); [reflexivity|]. simpl. now rewrite Ascii.eqb_refl.
  - intros d Hd. apply H. simpl. rewrite Hd. apply orb_true_r.
Qed.

Lemma rstrip_with_app p t u :
  (forall c, Py.mem_char c u = true -> p c = true) ->
  Py.rstrip_with p (t ++ u) = Py.rstrip_with p t.
Proof.
  intros H. induction t as [|c t IH]; simpl.
  - now apply rstrip_with_all.
  - now rewrite IH.
Qed.

Lemma rstrip_crlf_line text :
  Py.rstrip Py.CRLF (text ++ Py.CRLF) = Py.rstrip Py.CRLF text.
Proof. unfold Py.rstrip. apply rstrip_with_app. auto. Qed.

Lemma is_digit_cases c :
  is_digit c = true ->
  In c ["0"; "1"; "2"; "3"; "4"; "5"; "6"; "7"; "8"; "9"]%char.
Proof.
  destruct c as [[] [] [] [] [] [] [] []]; intros H; vm_compute in H;
    try discriminate H; simpl; tauto.
Qed.

Lemma is_code_inv code :
  is_code code = true ->
  exists a b c, code = String a (String b (String c EmptyString))
                /\ is_digit a = true /\ is_digit b = true /\ is_digit c = true.
Proof.
  destruct code as [|a [|b [|c [|d r]]]]; simpl; try discriminate.
  intros H. apply andb_true_iff in H as [H Hc]. apply andb_true_iff in H as [Ha Hb].
  now exists a, b, c.
Qed.

Ltac digit_cases H :=
  apply is_digit_cases in H; simpl in H;
  repeat (destruct H as [H|H]; [subst|]); try contradiction.

(** [int] reads a three-digit code as its decimal value. *)
Lemma int_code code : is_code code = true -> Py.int code = Some (code_value code).
Proof.
  intros H. apply is_code_inv in H as (a & b & c & -> & Ha & Hb & Hc).
  digit_cases Ha; digit_cases Hb; digit_cases Hc; reflexivity.
Qed.

(** ** Bounds on what [int] reads from three characters *)

Lemma digit_val_range c d : Py.digit_val c = Some d -> 0 <= d <= 9.
Proof.
  unfold Py.digit_val.
  destruct (Nat.leb 48 (nat_of_ascii c) && Nat.leb (nat_of_ascii c) 57)%bool eqn:E;
    [|discriminate].
  apply andb_true_iff in E as [E1 E2].
  apply Nat.leb_le in E1. apply Nat.leb_le in E2.
  intros H; inversion H; subst. lia.
Qed.

Lemma int_digits_range s :
  forall acc b v, Py.int_digits s acc b = Some v -> 0 <= acc ->
    acc <= v < (acc + 1) * 10 ^ Z.of_nat (String.length s).
Proof.
  induction s as [|c s IH]; intros acc b v H Hacc.
  - simpl in H. destruct b; [|discriminate]. inversion H; subst. simpl. lia.
  - cbn [Py.int_digits] in H. cbn [String.length].
    rewrite Nat2Z.inj_succ, Z.pow_succ_r by lia.
    assert (Hp : 0 < 10 ^ Z.of_nat (String.length s)) by (apply Z.pow_pos_nonneg; lia).
    destruct (Py.digit_val c) as [d|] eqn:Ed.
    + apply digit_val_range in Ed. apply IH in H; [|lia]. nia.
    + destruct (Ascii.eqb c "_" && b)%bool; [|discriminate].
      apply IH in H; [|lia]. nia.
Qed.

Lemma lstrip_with_length p s :
  (String.length (Py.lstrip_with p s) <= String.length s)%nat.
Proof. induction s as [|c s IH]; simpl; [lia|]. destruct (p c); simpl; lia. Qed.

Lemma rstrip_with_length p s :
  (String.length (Py.rstrip_with p s) <= String.length s)%nat.
Proof.
  induction s as [|c s IH]; simpl; [lia|].
  destruct (Py.rstrip_with p s); [destruct (p c)|]; simpl in *; lia.
Qed.

Lemma take_length n s : (String.length (Py.take n s) <= n)%nat.
Proof.
  revert s; induction n as [|n IH]; intros [|c s]; simpl; try lia.
  specialize (IH s). lia.
Qed.

(** Whatever three characters hold, [int] reads a number from -99 to 999. *)
Lemma int_range s v :
  (String.length s <= 3)%nat -> Py.int s = Some v -> -99 <= v <= 999.
Proof.
  intros Hlen. unfold Py.int.
  assert (Hl : (String.length (Py.strip_ws s) <= 3)%nat).
  { unfold Py.strip_ws.
    pose proof (lstrip_with_length Py.isspace (Py.rstrip_with Py.isspace s)).
    pose proof (rstrip_with_length Py.isspace s). lia. }
  assert (Hgen : forall t, (String.length t <= 3)%nat ->
                           forall w, Py.int_digits t 0 false = Some w -> 0 <= w <= 999).
  { intros t Ht w Hw. apply int_digits_range in Hw; [|lia].
    assert (10 ^ Z.of_nat (String.length t) <= 10 ^ 3)
      by (apply Z.pow_le_mono_r; lia).
    lia. }
  assert (Hsgn : forall t, (String.length t <= 2)%nat ->
                           forall w, Py.int_digits t 0 false = Some w -> 0 <= w <= 99).
  { intros t Ht w Hw. apply int_digits_range in Hw; [|lia].
    assert (10 ^ Z.of_nat (String.length t) <= 10 ^ 2)
      by (apply Z.pow_le_mono_r; lia).
    lia. }
  destruct (Py.strip_ws s) as [|c t] eqn:E.
  - intros H. apply (Hgen EmptyString) in H; simpl; lia.
  - simpl in Hl.
    destruct (Ascii.eqb c "+") eqn:Ep; [apply Ascii.eqb_eq in Ep; subst c|].
    + intros H. apply Hsgn in H; lia.
    + destruct (Ascii.eqb c "-") eqn:Em; [apply Ascii.eqb_eq in Em; subst c|].
      * destruct (Py.int_digits t 0 false) as [w|] eqn:Ew; [|discriminate].
        apply Hsgn in Ew; [|lia]. simpl. intros H; inversion H; subst. lia.
      * intros H.
        assert (H' : Py.int_digits (String c t) 0 false = Some v).
        { revert H. clear - Ep Em.
          destruct c as [[] [] [] [] [] [] [] []]; try discriminate; auto. }
        apply Hgen in H'; simpl; lia.
Qed.

(** ** Reading from the socket *)

Lemma only_read_refl s : only_read s s.
Proof. unfold only_read, set_inbuf. now destruct s. Qed.

Lemma only_read_set_inbuf s0 s b : only_read s0 s -> only_read s0 (set_inbuf b s).
Proof. unfold only_read. intros ->. reflexivity. Qed.

Lemma only_read_fields s s' :
  only_read s s' ->
  username s' = username s /\ secured s' = secured s /\ trace s' = trace s
  /\ connect_err s' = connect_err s /\ wrap_err s' = wrap_err s.
Proof. unfold only_read. intros ->. simpl. tauto. Qed.

Lemma sock_readline_eq s :
  sock_readline s = (Ok (fst (split_line (inbuf s))), set_inbuf (snd (split_line (inbuf s))) s).
Proof. unfold sock_readline. now destruct (split_line (inbuf s)). Qed.

(** ** umailesp.py: the reply parser *)

Lemma esp_cmd_body_cases c acc s r s' :
  Umailesp.cmd_body c acc s = (r, s') ->
  s' = set_inbuf (snd (split_line (inbuf s))) s
  /\ match r with
     | Ok (Continue _) => fst (split_line (inbuf s)) <> EmptyString
     | Ok (Break (code, lines)) =>
         exists t, Py.int (Py.take 3 (Py.rstrip Py.CRLF (fst (split_line (inbuf s))))) = Some code
                   /\ lines = (acc ++ [t])%list
     | Raise e => exists m, e = Exception (String "N" m) \/ e = Exception (String "I" m)
     end.
Proof.
  unfold Umailesp.cmd_body, bind. rewrite sock_readline_eq.
  destruct (fst (split_line (inbuf s))) as [|ch l] eqn:El;
    unfold Py.is_empty; cbv beta iota.
  - unfold raise. intros H; inversion H; subst. split; [reflexivity|].
    eexists. left. reflexivity.
  - destruct (String.length (Py.rstrip Py.CRLF (String ch l)) <? 3)%nat.
    + unfold raise. intros H; inversion H; subst. split; [reflexivity|].
      eexists. right. reflexivity.
    + destruct (Py.int (Py.take 3 (Py.rstrip Py.CRLF (String ch l)))) as [code|].
      * match goal with |- context [if ?b then _ else _] => destruct b end;
          unfold ret; intros H; inversion H; subst; split;
            solve [reflexivity | discriminate | eexists; split; reflexivity].
      * unfold raise. intros H; inversion H; subst. split; [reflexivity|].
        eexists. right. reflexivity.
Qed.

Lemma esp_cmd_body_reads c acc s a' s' :
  Umailesp.cmd_body c acc s = (Ok (Continue a'), s') ->
  (String.length (inbuf s') < String.length (inbuf s))%nat.
Proof.
  intros H. apply esp_cmd_body_cases in H as [-> Hne]. simpl.
  rewrite (split_line_length (inbuf s)).
  destruct (fst (split_line (inbuf s))); [congruence | simpl; lia].
Qed.

(** What [cmd] does besides reading: it writes the command line and sleeps. *)
Lemma esp_cmd_cases c s r s' :
  Umailesp.cmd c s = (r, s') ->
  only_read (logged (esp_cmd_events c) s) s'
  /\ match r with
     | Ok (code, lines) => -99 <= code <= 999 /\ (1 <= List.length lines)%nat
     | Raise e => exists m, e = Exception (String "N" m) \/ e = Exception (String "I" m)
     end.
Proof.
  unfold Umailesp.cmd, bind. intros H.
  pose (Q := fun r : result Reply =>
               match r with
               | Ok (code, lines) => -99 <= code <= 999 /\ (1 <= List.length lines)%nat
               | Raise e => exists m, e = Exception (String "N" m)
                                      \/ e = Exception (String "I" m)
               end).
  change (only_read (logged (esp_cmd_events c) s) s' /\ Q r).
  assert (W : forall s1, only_read (logged (esp_cmd_events c) s) s1 ->
                         while (Umailesp.cmd_body c) [] s1 = (r, s') ->
                         only_read (logged (esp_cmd_events c) s) s' /\ Q r).
  { intros s1 Hs1 Hw.
    eapply (while_invariant (Umailesp.cmd_body c) (esp_cmd_body_reads c)
              (only_read (logged (esp_cmd_events c) s)) Q) in Hw; [exact Hw | | exact Hs1].
    intros a x rr x' Px Hb. apply esp_cmd_body_cases in Hb as [-> Hr].
    split; [now apply only_read_set_inbuf|].
    destruct rr as [[a'|[code lines]]|e]; [exact I | | exact Hr].
    destruct Hr as (t & Hi & ->). split.
    - apply int_range in Hi; [exact Hi | apply take_length].
    - rewrite List.length_app. simpl. lia. }
  unfold esp_cmd_events in *.
  destruct (String.eqb c "Initial greeting"); simpl in H; eapply W; eauto.
  - unfold logged. rewrite List.app_nil_r. unfold only_read, set_inbuf. now destruct s.
  - unfold logged; simpl. rewrite <- List.app_assoc. apply only_read_refl.
Qed.

Lemma one_line_app a b : one_line (a ++ b) = (one_line a && one_line b)%bool.
Proof.
  unfold one_line. induction a as [|c a IH]; simpl; [reflexivity|].
  rewrite !negb_orb, <- andb_assoc. f_equal. exact IH.
Qed.

Lemma digit_not_crlf c : is_digit c = true -> Py.mem_char c Py.CRLF = false.
Proof. intros H. digit_cases H; reflexivity. Qed.

Lemma digit_not_lf c : is_digit c = true -> Ascii.eqb Py.LF c = false.
Proof. intros H. digit_cases H; reflexivity. Qed.

Lemma one_line_code code : is_code code = true -> one_line code = true.
Proof.
  intros H. apply is_code_inv in H as (a & b & c & -> & Ha & Hb & Hc).
  unfold one_line. simpl.
  now rewrite (digit_not_lf a), (digit_not_lf b), (digit_not_lf c).
Qed.

(** One protocol line [code sep text CRLF], with [sep] a dash or a space, as
    one round of the loop of [cmd] handles it. *)
Lemma esp_cmd_body_line c acc code (sep : ascii) text rest s :
  is_code code = true -> one_line text = true ->
  sep = "-"%char \/ sep = " "%char ->
  inbuf s = code ++ String sep (text ++ Py.CRLF ++ rest) ->
  Umailesp.cmd_body c acc s =
  (Ok (if Ascii.eqb sep "-"
       then Continue (acc ++ [stored text])%list
       else Break (code_value code, (acc ++ [stored text])%list)),
   set_inbuf rest s).
Proof.
  intros Hcode Htext Hsep Hin.
  assert (Hline : split_line (inbuf s)
                  = (code ++ String sep (text ++ Py.CRLF), rest)).
  { rewrite Hin.
    replace (code ++ String sep (text ++ Py.CRLF ++ rest))
      with ((code ++ String sep (text ++ String Py.CR EmptyString)) ++ String Py.LF rest).
    2:{ rewrite str_app_assoc. simpl. now rewrite str_app_assoc. }
    rewrite split_line_one_line.
    - f_equal. rewrite str_app_assoc. simpl. now rewrite str_app_assoc.
    - rewrite one_line_app, (one_line_code code Hcode). simpl.
      change (String sep (text ++ String Py.CR EmptyString))
        with (String sep EmptyString ++ (text ++ String Py.CR EmptyString)).
      rewrite !one_line_app, Htext. now destruct Hsep; subst sep. }
  assert (Hint := int_code code Hcode).
  apply is_code_inv in Hcode as (a & b & d & -> & Ha & Hb & Hd).
  assert (Hstrip : Py.rstrip Py.CRLF (String a (String b (String d (String sep (text ++ Py.CRLF)))))
                   = String a (String b (String d (String sep (Py.rstrip Py.CRLF text))))).
  { unfold Py.rstrip. rewrite !rstrip_with_keep; auto using digit_not_crlf.
    - do 4 f_equal. apply rstrip_crlf_line.
    - now destruct Hsep; subst sep. }
  unfold Umailesp.cmd_body, bind. rewrite sock_readline_eq, Hline.
  cbn [fst snd Py.is_empty append]. rewrite Hstrip.
  cbn [String.length Nat.ltb Nat.leb Py.take Py.drop String.get].
  change (Py.take 0 _) with EmptyString. rewrite Hint.
  replace (Py.lstrip "- " (String sep (Py.rstrip Py.CRLF text))) with (stored text)
    by (now destruct Hsep; subst sep).
  cbn [orb String.get]. unfold ret.
  now destruct Hsep; subst sep.
Qed.

Lemma concat_cons_empty x l :
  String.concat EmptyString (x :: l) = x ++ String.concat EmptyString l.
Proof. destruct l; simpl; [now rewrite str_app_empty_r | reflexivity]. Qed.

Lemma reply_wire_cons ct conts code text rest :
  reply_wire (ct :: conts) code text ++ rest
  = fst ct ++ String "-" (snd ct ++ Py.CRLF ++ reply_wire conts code text ++ rest).
Proof.
  unfold reply_wire. cbn [map]. rewrite concat_cons_empty. unfold continuation_line.
  rewrite !str_app_assoc. simpl. rewrite !str_app_assoc. reflexivity.
Qed.

Lemma reply_wire_nil code text rest :
  reply_wire [] code text ++ rest = code ++ String " " (text ++ Py.CRLF ++ rest).
Proof.
  unfold reply_wire, final_line. simpl. rewrite !str_app_assoc. simpl.
  now rewrite !str_app_assoc.
Qed.

(** The loop of [cmd] on a whole reply: one stored line per protocol line,
    in the order of arrival, and the code of the final line. *)
Lemma esp_while_reply c conts :
  forall acc code text rest s,
    forallb well_formed conts = true ->
    is_code code = true -> one_line text = true ->
    inbuf s = reply_wire conts code text ++ rest ->
    while (Umailesp.cmd_body c) acc s
    = (Ok (code_value code,
           (acc ++ map (fun ct => stored (snd ct)) conts ++ [stored text])%list),
       set_inbuf rest s).
Proof.
  induction conts as [|ct conts IH]; intros acc code text rest s Hwf Hcode Htext Hin;
    rewrite (while_unfold _ (esp_cmd_body_reads c)).
  - rewrite reply_wire_nil in Hin.
    rewrite (esp_cmd_body_line c acc code " " text rest s); auto.
  - simpl in Hwf. apply andb_true_iff in Hwf as [Hct Hwf].
    unfold well_formed in Hct. apply andb_true_iff in Hct as [Hc Ht].
    rewrite reply_wire_cons in Hin.
    rewrite (esp_cmd_body_line c acc (fst ct) "-" (snd ct) _ s Hc Ht (or_introl eq_refl) Hin).
    change (Ascii.eqb "-" "-") with true. cbv iota.
    rewrite (IH _ code text rest); auto.
    simpl. rewrite <- List.app_assoc. simpl. now destruct s.
Qed.

Lemma esp_cmd_reply c conts code text rest s :
  forallb well_formed conts = true ->
  is_code code = true -> one_line text = true ->
  inbuf s = reply_wire conts code text ++ rest ->
  Umailesp.cmd c s
  = (Ok (code_value code, (map (fun ct => stored (snd ct)) conts ++ [stored text])%list),
     set_inbuf rest (logged (esp_cmd_events c) s)).
Proof.
  intros Hwf Hcode Htext Hin. unfold Umailesp.cmd, bind, esp_cmd_events.
  destruct (String.eqb c "Initial greeting"); simpl.
  - rewrite (esp_while_reply c conts [] code text rest); auto.
    simpl. unfold logged. now rewrite List.app_nil_r.
  - rewrite (esp_while_reply c conts [] code text rest); auto.
    unfold logged; simpl. now rewrite <- List.app_assoc.
Qed.

(** ** umailesp32.py: the reply parser *)

Lemma decode_cases b s :
  (Py.utf8_valid b = true /\ decode b s = (Ok b, s))
  \/ (Py.utf8_valid b = false /\ decode b s = (Raise (UnicodeError b), s)).
Proof. unfold decode. destruct (Py.utf8_valid b); [left | right]; split; reflexivity. Qed.

Lemma esp32_cmd_body_cases resp s r s' :
  Umailesp32.cmd_body resp s = (r, s') ->
  match r with
  | Ok (Continue a) =>
      exists rest,
        inbuf s = String "-" rest /\ s' = set_inbuf (snd (split_line rest)) s
        /\ Py.utf8_valid (Py.strip_ws (fst (split_line rest))) = true
        /\ a = resp ++ " " ++ Py.strip_ws (fst (split_line rest))
  | Ok (Break b) => b = resp /\ s' = set_inbuf (Py.drop 1 (inbuf s)) s
  | Raise e =>
      exists rest,
        inbuf s = String "-" rest /\ s' = set_inbuf (snd (split_line rest)) s
        /\ Py.utf8_valid (Py.strip_ws (fst (split_line rest))) = false
        /\ e = UnicodeError (Py.strip_ws (fst (split_line rest)))
  end.
Proof.
  unfold Umailesp32.cmd_body, bind, sock_read.
  destruct (inbuf s) as [|ch rest] eqn:E.
  - simpl. unfold ret. intros H; inversion H; subst. auto.
  - cbn [Py.take Py.drop]. change (Py.take 0 rest) with EmptyString.
    destruct (String.eqb (String ch EmptyString) "-") eqn:Eb.
    + apply String.eqb_eq in Eb. inversion Eb; subst ch.
      rewrite sock_readline_eq. cbn [inbuf set_inbuf fst snd].
      match goal with
      | |- context [decode ?b ?st] => destruct (decode_cases b st) as [[V ->] | [V ->]]
      end; unfold ret; intros H; inversion H; subst; exists rest;
        (split; [reflexivity|]); (split; [reflexivity|]); split; auto.
    + unfold ret. intros H; inversion H; subst. auto.
Qed.

Lemma esp32_cmd_body_reads resp s a' s' :
  Umailesp32.cmd_body resp s = (Ok (Continue a'), s') ->
  (String.length (inbuf s') < String.length (inbuf s))%nat.
Proof.
  intros H. apply esp32_cmd_body_cases in H as (rest & E & -> & _). rewrite E. simpl.
  rewrite (split_line_length rest). lia.
Qed.

Lemma esp32_while_only_read s0 resp s r s' :
  only_read s0 s -> while Umailesp32.cmd_body resp s = (r, s') -> only_read s0 s'.
Proof.
  intros Hs H.
  eapply (while_invariant Umailesp32.cmd_body esp32_cmd_body_reads
            (only_read s0) (fun _ => True)) in H as [H1 H2]; eauto.
  intros a x rr x' Px Hb. apply esp32_cmd_body_cases in Hb.
  destruct rr as [[a'|b]|e].
  - destruct Hb as (rest & _ & -> & _). split; [now apply only_read_set_inbuf | exact I].
  - destruct Hb as [_ ->]. split; [now apply only_read_set_inbuf | exact I].
  - destruct Hb as (rest & _ & -> & _). split; [now apply only_read_set_inbuf | exact I].
Qed.

(** [cmd] writes the command line and then only reads; its reply has one
    line, and its code is read off the first three bytes. *)
Lemma esp32_cmd_cases c s r s' :
  Umailesp32.cmd c s = (r, s') ->
  only_read (logged [EvWrite (c ++ Py.CRLF)] s) s'
  /\ match r with
     | Ok (code, lines) =>
         Py.int (Py.take 3 (inbuf s)) = Some code /\ exists resp, lines = [resp]
     | Raise _ => True
     end.
Proof.
  unfold Umailesp32.cmd, bind. cbn [sock_write log sock_read].
  change (inbuf (logged [EvWrite (c ++ Py.CRLF)] s)) with (inbuf s).
  set (s1 := logged [EvWrite (c ++ Py.CRLF)] s).
  destruct (Py.is_empty (Py.take 3 (inbuf s))).
  - unfold raise. intros H; inversion H; subst. split; [|exact I].
    apply only_read_set_inbuf, only_read_refl.
  - destruct (Py.int (Py.take 3 (inbuf s))) as [code|].
    + rewrite sock_readline_eq.
      match goal with
      | |- context [decode ?b ?st] => destruct (decode_cases b st) as [[V ->] | [V ->]]
      end.
      * destruct (while Umailesp32.cmd_body _ _) as [[resp|e] s2] eqn:W;
          unfold ret; intros H; inversion H; subst;
          (split; [|eauto]);
          (eapply esp32_while_only_read; [|exact W]);
          apply only_read_set_inbuf, only_read_set_inbuf, only_read_refl.
      * intros H; inversion H; subst. split; [|exact I].
        apply only_read_set_inbuf, only_read_set_inbuf, only_read_refl.
    + unfold raise. intros H; inversion H; subst. split; [|exact I].
      apply only_read_set_inbuf, only_read_refl.
Qed.


(** ** What the two files share: [quit] and [to] *)

Lemma count_app ev a b : count ev (a ++ b) = (count ev a + count ev b)%nat.
Proof.
  induction a as [|e a IH]; simpl; [reflexivity|].
  destruct (event_eqb ev e); simpl; lia.
Qed.

(** [quit] swallows whatever the QUIT exchange does and closes the socket. *)
Lemma quit_always_closes (exchange : string -> M Reply) s :
  Common.quit exchange s = (Ok tt, logged [EvClose] (snd (exchange "QUIT" s))).
Proof.
  unfold Common.quit, bind, try_except.
  destruct (exchange "QUIT" s) as [[[code resp]|e] s1]; reflexivity.
Qed.

Lemma to_no_attempt (exchange : string -> M Reply) addrs mail_from retries s :
  retries <= 0 -> Common.to exchange addrs mail_from retries s = (Ok None, s).
Proof.
  intros H. unfold Common.to, bind, get_username, Py.range.
  replace (Z.to_nat retries) with O by lia. reflexivity.
Qed.

Section Shared.

Variable cmd : string -> M Reply.

(** what [cmd] logs after the command line *)
Variable pause : list event.

Hypothesis cmd_effects :
  forall c s r s', String.eqb c "Initial greeting" = false ->
    cmd c s = (r, s') -> only_read (logged (EvWrite (c ++ Py.CRLF) :: pause) s) s'.

Hypothesis pause_cases : pause = [] \/ pause = [EvSleep 300].

Lemma cmd_trace c s r s' :
  String.eqb c "Initial greeting" = false -> cmd c s = (r, s') ->
  trace s' = (trace s ++ EvWrite (c ++ Py.CRLF) :: pause)%list.
Proof.
  intros Hc H. apply (cmd_effects c s r s' Hc) in H.
  now apply only_read_fields in H as (_ & _ & -> & _).
Qed.

Lemma cmd_count c s r s' ev :
  String.eqb c "Initial greeting" = false -> cmd c s = (r, s') ->
  event_eqb ev (EvSleep 300) = false ->
  count ev (trace s') = (count ev (trace s) + count ev [EvWrite (c ++ Py.CRLF)])%nat.
Proof.
  intros Hc H Hev. rewrite (cmd_trace c s r s' Hc H), count_app.
  change (EvWrite (c ++ Py.CRLF) :: pause) with ([EvWrite (c ++ Py.CRLF)] ++ pause)%list.
  rewrite count_app.
  replace (count ev pause) with O; [lia|].
  destruct pause_cases as [-> | ->]; simpl; [reflexivity | now rewrite Hev].
Qed.

Ltac count_cmd E :=
  match type of E with
  | cmd ?c _ = _ => rewrite (cmd_count c _ _ _ _ eq_refl E) by reflexivity
  end.

Lemma rcpt_loop_counts mf addrs :
  forall n code resp s r s',
    Common.rcpt_loop cmd addrs n code resp s = (r, s') ->
    count (mail_event mf) (trace s') = count (mail_event mf) (trace s)
    /\ count (EvSleep 5000) (trace s') = count (EvSleep 5000) (trace s).
Proof.
  induction addrs as [|addr rest IH]; intros n code resp s r s' H.
  - inversion H; subst. auto.
  - cbn [Common.rcpt_loop] in H. unfold bind in H.
    destruct (cmd ("RCPT TO: <" ++ addr ++ ">") s) as [[[code1 resp1]|e] s1] eqn:E.
    + apply IH in H as [-> ->].
      split; count_cmd E;
        (replace (count _ [_]) with O by reflexivity); lia.
    + inversion H; subst.
      split; count_cmd E;
        (replace (count _ [_]) with O by reflexivity); lia.
Qed.

(** An attempt, whatever its outcome, writes MAIL FROM once and never sleeps
    the back-off. *)
Lemma to_attempt_counts mf addrs s r s' :
  Common.to_attempt cmd mf addrs s = (r, s') ->
  count (mail_event mf) (trace s') = S (count (mail_event mf) (trace s))
  /\ count (EvSleep 5000) (trace s') = count (EvSleep 5000) (trace s).
Proof.
  unfold Common.to_attempt, bind.
  destruct (cmd ("MAIL FROM: <" ++ mf ++ ">") s) as [[[code resp]|e] s1] eqn:E.
  2:{ intros H; inversion H; subst.
      split; count_cmd E.
      - unfold mail_event. simpl. rewrite String.eqb_refl. lia.
      - simpl. lia. }
  assert (H1 : count (mail_event mf) (trace s1) = S (count (mail_event mf) (trace s))
               /\ count (EvSleep 5000) (trace s1) = count (EvSleep 5000) (trace s)).
  { split; count_cmd E.
    - unfold mail_event. simpl. rewrite String.eqb_refl. lia.
    - simpl. lia. }
  destruct H1 as [Hm Hs].
  destruct (negb (code =? 250)).
  { intros H; inversion H; subst. auto. }
  destruct (Common.rcpt_loop cmd _ 0 code resp s1) as [[[[n code2] resp2]|e] s2] eqn:R;
    apply (rcpt_loop_counts mf) in R as [Rm Rs].
  2:{ intros H; inversion H; subst. rewrite Rm, Rs. auto. }
  destruct (n =? _).
  { intros H; inversion H; subst. rewrite Rm, Rs. auto. }
  destruct (cmd "DATA" s2) as [[[code3 resp3]|e] s3] eqn:D.
  - assert (count (mail_event mf) (trace s3) = count (mail_event mf) (trace s2)
            /\ count (EvSleep 5000) (trace s3) = count (EvSleep 5000) (trace s2)) as [Dm Ds].
    { split; count_cmd D;
        (replace (count _ [_]) with O by reflexivity); lia. }
    destruct (negb (code3 =? 354)); intros H; inversion H; subst;
      rewrite Dm, Ds, Rm, Rs; auto.
  - assert (count (mail_event mf) (trace s3) = count (mail_event mf) (trace s2)
            /\ count (EvSleep 5000) (trace s3) = count (EvSleep 5000) (trace s2)) as [Dm Ds].
    { split; count_cmd D;
        (replace (count _ [_]) with O by reflexivity); lia. }
    intros H; inversion H; subst. rewrite Dm, Ds, Rm, Rs; auto.
Qed.

Lemma failed_attempts_counts mf addrs n :
  forall s e s',
    failed_attempts cmd mf addrs n s = Some (e, s') ->
    count (mail_event mf) (trace s') = (count (mail_event mf) (trace s) + S n)%nat
    /\ count (EvSleep 5000) (trace s') = (count (EvSleep 5000) (trace s) + n)%nat.
Proof.
  induction n as [|n IH]; intros s e s'; cbn [failed_attempts];
    destruct (Common.to_attempt cmd mf addrs s) as [[r|e1] s1] eqn:A; try discriminate;
    apply to_attempt_counts in A as [Am As].
  - intros H; inversion H; subst. rewrite Am, As. lia.
  - intros H. apply IH in H as [-> ->]. unfold logged; simpl.
    rewrite !count_app, Am, As. simpl. lia.
Qed.

End Shared.

(** When every attempt raises, the loop of [to] makes exactly the attempts
    of its list and raises what the last one raised. *)
Lemma to_loop_all_fail (exchange : string -> M Reply) mf addrs n :
  forall k s e s',
    failed_attempts exchange mf addrs n s = Some (e, s') ->
    Common.to_loop exchange mf addrs (Z.of_nat (k + S n)) (map Z.of_nat (seq k (S n))) s
    = (Raise e, s').
Proof.
  induction n as [|n IH]; intros k s e s'; cbn [failed_attempts seq map Common.to_loop];
    unfold try_except, bind;
    destruct (Common.to_attempt exchange mf addrs s) as [[r|e1] s1]; try discriminate.
  - intros H; inversion H; subst.
    replace (Z.of_nat k <? Z.of_nat (k + 1) - 1) with false
      by (symmetry; apply Z.ltb_ge; lia).
    reflexivity.
  - intros H.
    replace (Z.of_nat k <? Z.of_nat (k + S (S n)) - 1) with true
      by (symmetry; apply Z.ltb_lt; lia).
    cbn [sleep log]. 
    replace (Z.of_nat (k + S (S n))) with (Z.of_nat (S k + S n)) by (f_equal; lia).
    apply (IH (S k)). exact H.
Qed.

Lemma to_all_fail (exchange : string -> M Reply) addrs mail_from retries s e s' :
  1 <= retries ->
  failed_attempts exchange (sender mail_from s) addrs (Z.to_nat (retries - 1)) s
  = Some (e, s') ->
  Common.to exchange addrs mail_from retries s = (Raise e, s').
Proof.
  intros Hr H. unfold Common.to, bind, get_username, Py.range.
  replace (Z.to_nat retries) with (S (Z.to_nat (retries - 1))) by lia.
  replace retries with (Z.of_nat (0 + S (Z.to_nat (retries - 1)))) at 1 by lia.
  apply to_loop_all_fail. exact H.
Qed.

Lemma rcpt_loop_codes (exchange : string -> M Reply) addrs :
  forall n code resp s codes s2,
    rcpt_codes exchange addrs s = Some (codes, s2) ->
    List.length codes = List.length addrs
    /\ exists code' resp',
         Common.rcpt_loop exchange addrs n code resp s
         = (Ok (n + refusals codes, code', resp'), s2).
Proof.
  induction addrs as [|addr rest IH]; intros n code resp s codes s2 H.
  - inversion H; subst. split; [reflexivity|]. exists code, resp.
    unfold refusals. simpl. unfold ret. now rewrite Z.add_0_r.
  - cbn [rcpt_codes] in H. cbn [Common.rcpt_loop]. unfold bind.
    destruct (exchange ("RCPT TO: <" ++ addr ++ ">") s) as [[[code1 resp1]|e] s1];
      [|discriminate].
    destruct (rcpt_codes exchange rest s1) as [[codes1 s3]|] eqn:R; [|discriminate].
    inversion H; subst.
    destruct (IH (if (negb (code1 =? 250) && negb (code1 =? 251))%bool then n + 1 else n)
                code1 resp1 s1 codes1 s2 R) as [Hlen (code' & resp' & ->)].
    split; [simpl; now rewrite Hlen|]. exists code', resp'.
    match goal with
    | |- (Ok (?a, _, _), _) = (Ok (?b, _, _), _) => replace b with a; [reflexivity|]
    end.
    unfold refusals. cbn [filter].
    replace (negb (accepted code1)) with (negb (code1 =? 250) && negb (code1 =? 251))%bool
      by (unfold accepted; now rewrite negb_orb).
    destruct (negb (code1 =? 250) && negb (code1 =? 251))%bool; cbn [List.length]; lia.
Qed.

Lemma refusals_below codes :
  existsb accepted codes = true -> refusals codes < Z.of_nat (List.length codes).
Proof.
  unfold refusals. induction codes as [|c codes IH]; simpl; [discriminate|].
  intros H.
  pose proof (List.filter_length_le (fun c => negb (accepted c)) codes) as Hle.
  destruct (accepted c); simpl in *; [lia|].
  specialize (IH H). lia.
Qed.

(** With one recipient accepted, an attempt gets as far as DATA, and its
    outcome is that of the DATA exchange. *)
Lemma to_attempt_reaches_data (exchange : string -> M Reply) mf addrs s r0 s1 codes s2 :
  exchange ("MAIL FROM: <" ++ mf ++ ">") s = (Ok (250, r0), s1) ->
  rcpt_codes exchange (recipients addrs) s1 = Some (codes, s2) ->
  existsb accepted codes = true ->
  Common.to_attempt exchange mf addrs s =
  match exchange "DATA" s2 with
  | (Ok (code, resp), s3) =>
      if code =? 354 then (Ok (code, resp), s3)
      else (Raise (Exception ("Data refused: " ++ Py.str_int code ++ ", " ++ Py.str_list resp)),
            s3)
  | (Raise e, s3) => (Raise e, s3)
  end.
Proof.
  intros Hm Hr Ha. unfold Common.to_attempt, bind. rewrite Hm.
  change (negb (250 =? 250)) with false. cbv iota.
  fold (recipients addrs).
  destruct (rcpt_loop_codes exchange _ 0 250 r0 s1 codes s2 Hr)
    as [Hlen (code' & resp' & ->)].
  pose proof (refusals_below codes Ha) as Hlt.
  replace (0 + refusals codes =? Z.of_nat (List.length (recipients addrs))) with false
    by (symmetry; apply Z.eqb_neq; rewrite <- Hlen; lia).
  destruct (exchange "DATA" s2) as [[[code resp]|e] s3]; [|reflexivity].
  now destruct (code =? 354).
Qed.

(** With [retries >= 1], a first attempt that succeeds is what [to] returns. *)
Lemma to_first_attempt (exchange : string -> M Reply) addrs mail_from retries s r s' :
  1 <= retries ->
  Common.to_attempt exchange (sender mail_from s) addrs s = (Ok r, s') ->
  Common.to exchange addrs mail_from retries s = (Ok (Some r), s').
Proof.
  intros Hr H. unfold Common.to, bind, get_username, Py.range.
  replace (Z.to_nat retries) with (S (Z.to_nat (retries - 1))) by lia.
  cbn [seq map Common.to_loop]. unfold try_except, bind.
  fold (sender mail_from s). now rewrite H.
Qed.

Lemma rstrip_with_nonempty p c r :
  Py.rstrip_with p r <> EmptyString ->
  Py.rstrip_with p (String c r) = String c (Py.rstrip_with p r).
Proof. intros H. simpl. destruct (Py.rstrip_with p r); [congruence | reflexivity]. Qed.

Lemma lstrip_with_first p s : first_is p s = false -> Py.lstrip_with p s = s.
Proof. destruct s as [|c s]; simpl; [reflexivity|]. now intros ->. Qed.

Lemma rstrip_with_last p s : last_is p s = false -> Py.rstrip_with p s = s.
Proof.
  induction s as [|c s IH]; [reflexivity|].
  destruct s as [|d s].
  - simpl. now intros ->.
  - intros H. change (last_is p (String c (String d s))) with (last_is p (String d s)) in H.
    rewrite rstrip_with_nonempty; rewrite (IH H); [reflexivity | discriminate].
Qed.


(** ** The claims on the reply parser *)

(** umailesp.py does what C1 says: a reply of N well-formed continuation
    lines and a final line makes its [cmd] return N+1 lines, the stored texts
    of the protocol lines in the order of arrival, with the status code of
    the final line. *)
Lemma esp_cmd_multiline_reply c conts code text rest s :
  forallb well_formed conts = true ->
  is_code code = true -> one_line text = true ->
  inbuf s = reply_wire conts code text ++ rest ->
  exists lines s',
    Umailesp.cmd c s = (Ok (code_value code, lines), s')
    /\ lines = (map (fun ct => stored (snd ct)) conts ++ [stored text])%list
    /\ List.length lines = S (List.length conts)
    /\ inbuf s' = rest.
Proof.
  intros Hwf Hcode Htext Hin.
  eexists; eexists. split; [eapply esp_cmd_reply; eassumption|].
  split; [reflexivity|]. split; [|reflexivity].
  rewrite List.length_app, List.length_map. simpl. lia.
Qed.

Example esp_cmd_multiline_reply_ehlo :
  exists lines s',
    Umailesp.cmd "EHLO 127.0.0.1" (fresh ehlo_reply) = (Ok (code_value "250", lines), s')
    /\ lines = ["STARTTLS"; "AUTH PLAIN LOGIN"]
    /\ List.length lines = 2%nat
    /\ inbuf s' = EmptyString.
Proof.
  apply (esp_cmd_multiline_reply "EHLO 127.0.0.1" [("250", "STARTTLS")]
           "250" "AUTH PLAIN LOGIN" EmptyString (fresh ehlo_reply));
    reflexivity.
Qed.

(** C1 fails in umailesp32.py.  Its [cmd] reads the three bytes of the code
    and the rest of the first line, then one byte to look for a dash; but
    the dash of a continuation line stands right after the code, so it ends
    up in the text, and the byte read next is the first digit of the
    following line.  On the reply [250-STARTTLS], [250 AUTH PLAIN LOGIN] it
    returns the one entry [-STARTTLS], leaves the final line unread but for
    its first byte, and the next command takes [50 ] for its status; on a
    reply whose lines carry different codes it returns the code of the first
    line, not of the last.  The [cmd] of umailesp.py returns both lines and
    the last code on the same replies. *)
Theorem esp32_cmd_drops_continuation_lines :
  Umailesp32.cmd ehlo_command (fresh ehlo_reply)
  = (Ok (250, ["-STARTTLS"]),
     mkSession None ("50 AUTH PLAIN LOGIN" ++ Py.CRLF) false
       [EvWrite (ehlo_command ++ Py.CRLF)] None None)
  /\ Umailesp.cmd ehlo_command (fresh ehlo_reply)
     = (Ok (250, ["STARTTLS"; "AUTH PLAIN LOGIN"]),
        mkSession None EmptyString false
          [EvWrite (ehlo_command ++ Py.CRLF); EvSleep 300] None None)
  /\ fst ((_ <- Umailesp32.cmd ehlo_command ;; Umailesp32.cmd "NOOP") (fresh ehlo_reply))
     = Ok (50, ["AUTH PLAIN LOGIN"])
  /\ fst (Umailesp32.cmd "DATA" (fresh (reply_wire [("250", "first")] "550" "last")))
     = Ok (250, ["-first"])
  /\ fst (Umailesp.cmd "DATA" (fresh (reply_wire [("250", "first")] "550" "last")))
     = Ok (550, ["first"; "last"]).
Proof. repeat split; vm_compute; reflexivity. Qed.





(** C7, as amended.  Every reply that [cmd] returns, in either file, has at
    least one line, and its status code is a number from -99 to 999: what
    [int] reads from three characters. *)
Theorem reply_invariant :
  (forall c s code lines s',
      Umailesp.cmd c s = (Ok (code, lines), s') ->
      -99 <= code <= 999 /\ (1 <= List.length lines)%nat)
  /\ (forall c s code lines s',
         Umailesp32.cmd c s = (Ok (code, lines), s') ->
         -99 <= code <= 999 /\ (1 <= List.length lines)%nat).
Proof.
  split.
  - intros c s code lines s' H. now apply esp_cmd_cases in H as [_ H].
  - intros c s code lines s' H. apply esp32_cmd_cases in H as [_ [Hi [resp ->]]].
    split; [|simpl; lia]. apply int_range in Hi; [exact Hi | apply take_length].
Qed.

Lemma reply_invariant_witness :
  (-99 <= 250 <= 999 /\ (1 <= List.length ["OK"])%nat)
  /\ (-99 <= 250 <= 999 /\ (1 <= List.length ["OK"])%nat).
Proof.
  split.
  - apply (proj1 reply_invariant "NOOP" (fresh (final_line "250" "OK")) 250 ["OK"]
             (logged (esp_cmd_events "NOOP") (fresh EmptyString))).
    reflexivity.
  - apply (proj2 reply_invariant "NOOP" (fresh (final_line "250" "OK")) 250 ["OK"]
             (logged [EvWrite ("NOOP" ++ Py.CRLF)] (fresh EmptyString))).
    reflexivity.
Defined.

(** C7 as it was stated fails: [cmd] returns the code 0 of the reply line
    [000 OK], which is below 100. *)
Lemma reply_invariant_counterexample :
  fst (Umailesp.cmd "NOOP" (fresh (final_line "000" "OK"))) = Ok (0, ["OK"])
  /\ ~ (100 <= 0 <= 599).
Proof. split; [reflexivity | lia]. Qed.

(** ** Both parsers fit the shared lemmas *)

Lemma esp_cmd_effects c s r s' :
  String.eqb c "Initial greeting" = false -> Umailesp.cmd c s = (r, s') ->
  only_read (logged (EvWrite (c ++ Py.CRLF) :: [EvSleep 300]) s) s'.
Proof.
  intros Hc H. apply esp_cmd_cases in H as [H _].
  unfold esp_cmd_events in H. now rewrite Hc in H.
Qed.

Lemma esp32_cmd_effects c s r s' :
  String.eqb c "Initial greeting" = false -> Umailesp32.cmd c s = (r, s') ->
  only_read (logged (EvWrite (c ++ Py.CRLF) :: []) s) s'.
Proof. intros _ H. now apply esp32_cmd_cases in H as [H _]. Qed.

(** ** The claims on the envelope *)

(** C4.  With [retries >= 1], when every attempt of the MAIL FROM / RCPT TO /
    DATA sequence raises, [to] raises the very exception of the last
    attempt; by then MAIL FROM has been written [retries] times, once per
    attempt, and the back-off has been slept [retries - 1] times, once per
    retry.  This holds in both files. *)
Theorem to_retries_then_raises addrs mail_from retries s e s' :
  1 <= retries ->
  (failed_attempts Umailesp.cmd (sender mail_from s) addrs (Z.to_nat (retries - 1)) s
   = Some (e, s') ->
   Umailesp.to addrs mail_from retries s = (Raise e, s')
   /\ Z.of_nat (count (mail_event (sender mail_from s)) (trace s'))
      = Z.of_nat (count (mail_event (sender mail_from s)) (trace s)) + retries
   /\ Z.of_nat (count (EvSleep 5000) (trace s'))
      = Z.of_nat (count (EvSleep 5000) (trace s)) + (retries - 1))
  /\ (failed_attempts Umailesp32.cmd (sender mail_from s) addrs (Z.to_nat (retries - 1)) s
      = Some (e, s') ->
      Umailesp32.to addrs mail_from retries s = (Raise e, s')
      /\ Z.of_nat (count (mail_event (sender mail_from s)) (trace s'))
         = Z.of_nat (count (mail_event (sender mail_from s)) (trace s)) + retries
      /\ Z.of_nat (count (EvSleep 5000) (trace s'))
         = Z.of_nat (count (EvSleep 5000) (trace s)) + (retries - 1)).
Proof.
  intros Hr. split; intros H.
  - split; [now apply to_all_fail|].
    apply (failed_attempts_counts Umailesp.cmd [EvSleep 300] esp_cmd_effects
             (or_intror eq_refl)) in H as [-> ->].
    lia.
  - split; [now apply to_all_fail|].
    apply (failed_attempts_counts Umailesp32.cmd [] esp32_cmd_effects
             (or_introl eq_refl)) in H as [-> ->].
    lia.
Qed.

Lemma to_retries_then_raises_witness :
  (Umailesp.to (AddrStr "you@y") (Some "me@x") 2 (fresh refusing_server)
   = (Raise (Exception "All recipients refused: 550, ['no such user']"),
      logged [EvWrite ("MAIL FROM: <me@x>" ++ Py.CRLF); EvSleep 300;
              EvWrite ("RCPT TO: <you@y>" ++ Py.CRLF); EvSleep 300;
              EvSleep 5000;
              EvWrite ("MAIL FROM: <me@x>" ++ Py.CRLF); EvSleep 300;
              EvWrite ("RCPT TO: <you@y>" ++ Py.CRLF); EvSleep 300]
             (fresh EmptyString))
   /\ Z.of_nat (count (mail_event "me@x")
                  [EvWrite ("MAIL FROM: <me@x>" ++ Py.CRLF); EvSleep 300;
                   EvWrite ("RCPT TO: <you@y>" ++ Py.CRLF); EvSleep 300;
                   EvSleep 5000;
                   EvWrite ("MAIL FROM: <me@x>" ++ Py.CRLF); EvSleep 300;
                   EvWrite ("RCPT TO: <you@y>" ++ Py.CRLF); EvSleep 300])
      = 0 + 2
   /\ Z.of_nat (count (EvSleep 5000)
                  [EvWrite ("MAIL FROM: <me@x>" ++ Py.CRLF); EvSleep 300;
                   EvWrite ("RCPT TO: <you@y>" ++ Py.CRLF); EvSleep 300;
                   EvSleep 5000;
                   EvWrite ("MAIL FROM: <me@x>" ++ Py.CRLF); EvSleep 300;
                   EvWrite ("RCPT TO: <you@y>" ++ Py.CRLF); EvSleep 300])
      = 0 + (2 - 1))
  /\ (Umailesp32.to (AddrStr "you@y") (Some "me@x") 2 (fresh EmptyString)
      = (Raise (Exception "No SMTP response"),
         logged [EvWrite ("MAIL FROM: <me@x>" ++ Py.CRLF); EvSleep 5000;
                 EvWrite ("MAIL FROM: <me@x>" ++ Py.CRLF)]
                (fresh EmptyString))
      /\ Z.of_nat (count (mail_event "me@x")
                     [EvWrite ("MAIL FROM: <me@x>" ++ Py.CRLF); EvSleep 5000;
                      EvWrite ("MAIL FROM: <me@x>" ++ Py.CRLF)])
         = 0 + 2
      /\ Z.of_nat (count (EvSleep 5000)
                     [EvWrite ("MAIL FROM: <me@x>" ++ Py.CRLF); EvSleep 5000;
                      EvWrite ("MAIL FROM: <me@x>" ++ Py.CRLF)])
         = 0 + (2 - 1)).
Proof.
  split.
  - apply (proj1 (to_retries_then_raises (AddrStr "you@y") (Some "me@x") 2
                    (fresh refusing_server)
                    (Exception "All recipients refused: 550, ['no such user']")
                    (logged [EvWrite ("MAIL FROM: <me@x>" ++ Py.CRLF); EvSleep 300;
                             EvWrite ("RCPT TO: <you@y>" ++ Py.CRLF); EvSleep 300;
                             EvSleep 5000;
                             EvWrite ("MAIL FROM: <me@x>" ++ Py.CRLF); EvSleep 300;
                             EvWrite ("RCPT TO: <you@y>" ++ Py.CRLF); EvSleep 300]
                            (fresh EmptyString))
                    ltac:(lia))).
    vm_compute. reflexivity.
  - apply (proj2 (to_retries_then_raises (AddrStr "you@y") (Some "me@x") 2
                    (fresh EmptyString)
                    (Exception "No SMTP response")
                    (logged [EvWrite ("MAIL FROM: <me@x>" ++ Py.CRLF); EvSleep 5000;
                             EvWrite ("MAIL FROM: <me@x>" ++ Py.CRLF)]
                            (fresh EmptyString))
                    ltac:(lia))).
    vm_compute. reflexivity.
Defined.

(** C5.  In an attempt of [to] where MAIL FROM is answered with 250 and every
    RCPT TO gets a reply, one accepted recipient (250 or 251) among refused
    ones is enough: the attempt goes on to write DATA, its outcome is that of
    the DATA exchange, whatever it raises is not the all-recipients-refused
    error, and when DATA is answered with 354 [to] returns that reply. *)
Theorem to_mixed_recipients mf addrs s r0 s1 codes s2 :
  Umailesp.cmd ("MAIL FROM: <" ++ mf ++ ">") s = (Ok (250, r0), s1) ->
  rcpt_codes Umailesp.cmd (recipients addrs) s1 = Some (codes, s2) ->
  existsb accepted codes = true ->
  existsb (fun c => negb (accepted c)) codes = true ->
  exists r s3,
    Common.to_attempt Umailesp.cmd mf addrs s = (r, s3)
    /\ trace s3 = (trace s2 ++ [EvWrite ("DATA" ++ Py.CRLF); EvSleep 300])%list
    /\ (forall e, r = Raise e -> is_all_refused e = false)
    /\ (forall resp mail_from retries,
           Umailesp.cmd "DATA" s2 = (Ok (354, resp), s3) ->
           sender mail_from s = mf -> 1 <= retries ->
           r = Ok (354, resp)
           /\ Umailesp.to addrs mail_from retries s = (Ok (Some (354, resp)), s3)).
Proof.
  intros Hm Hr Ha _.
  pose proof (to_attempt_reaches_data Umailesp.cmd mf addrs s r0 s1 codes s2 Hm Hr Ha) as A.
  destruct (Umailesp.cmd "DATA" s2) as [[[code resp]|e] s3] eqn:D.
  - pose proof (esp_cmd_effects "DATA" s2 _ s3 eq_refl D) as Ht.
    apply only_read_fields in Ht as (_ & _ & Ht & _).
    destruct (code =? 354) eqn:Ec; eexists; eexists; (split; [exact A|]);
      (split; [exact Ht|]); split; try discriminate.
    + intros resp' mail_from retries H' Hs Hr'. inversion H'; subst.
      split; [reflexivity|]. unfold Umailesp.to.
      now apply to_first_attempt.
    + intros e H'. inversion H'; subst. reflexivity.
    + intros resp' mail_from retries H'. inversion H'; subst. discriminate.
  - pose proof (esp_cmd_effects "DATA" s2 _ s3 eq_refl D) as Ht.
    apply only_read_fields in Ht as (_ & _ & Ht & _).
    apply esp_cmd_cases in D as [_ (m & Hm')].
    eexists; eexists. split; [exact A|]. split; [exact Ht|]. split; [|discriminate].
    intros e' H'. inversion H'; subst e'. now destruct Hm' as [-> | ->].
Qed.

Lemma to_mixed_recipients_witness :
  exists r s3,
    Common.to_attempt Umailesp.cmd "me@x" (AddrList ["a@y"; "b@y"]) (fresh mixed_server)
    = (r, s3)
    /\ trace s3
       = (trace (logged [EvWrite ("MAIL FROM: <me@x>" ++ Py.CRLF); EvSleep 300;
                         EvWrite ("RCPT TO: <a@y>" ++ Py.CRLF); EvSleep 300;
                         EvWrite ("RCPT TO: <b@y>" ++ Py.CRLF); EvSleep 300]
                        (fresh (final_line "354" "go ahead")))
          ++ [EvWrite ("DATA" ++ Py.CRLF); EvSleep 300])%list
    /\ (forall e, r = Raise e -> is_all_refused e = false)
    /\ (forall resp mail_from retries,
           Umailesp.cmd "DATA"
             (logged [EvWrite ("MAIL FROM: <me@x>" ++ Py.CRLF); EvSleep 300;
                      EvWrite ("RCPT TO: <a@y>" ++ Py.CRLF); EvSleep 300;
                      EvWrite ("RCPT TO: <b@y>" ++ Py.CRLF); EvSleep 300]
                     (fresh (final_line "354" "go ahead")))
           = (Ok (354, resp), s3) ->
           sender mail_from (fresh mixed_server) = "me@x" -> 1 <= retries ->
           r = Ok (354, resp)
           /\ Umailesp.to (AddrList ["a@y"; "b@y"]) mail_from retries (fresh mixed_server)
              = (Ok (Some (354, resp)), s3)).
Proof.
  apply (to_mixed_recipients "me@x" (AddrList ["a@y"; "b@y"]) (fresh mixed_server)
           ["OK"]
           (logged [EvWrite ("MAIL FROM: <me@x>" ++ Py.CRLF); EvSleep 300]
                   (fresh (final_line "250" "OK" ++ final_line "550" "no such user"
                           ++ final_line "354" "go ahead")))
           [250; 550]);
    vm_compute; reflexivity.
Defined.

(** C10.  With [retries <= 0] the loop of [to] has nothing to go through:
    [to] returns [None] and leaves the session as it was, so nothing was
    sent; this holds in both files. *)
Theorem to_without_attempts addrs mail_from retries s :
  retries <= 0 ->
  Umailesp.to addrs mail_from retries s = (Ok None, s)
  /\ Umailesp32.to addrs mail_from retries s = (Ok None, s).
Proof. intros H. split; now apply to_no_attempt. Qed.

Lemma to_without_attempts_witness :
  Umailesp.to (AddrStr "you@y") (Some "me@x") (-1) (fresh mixed_server)
  = (Ok None, fresh mixed_server)
  /\ Umailesp32.to (AddrStr "you@y") (Some "me@x") (-1) (fresh mixed_server)
     = (Ok None, fresh mixed_server).
Proof.
  apply (to_without_attempts (AddrStr "you@y") (Some "me@x") (-1) (fresh mixed_server)).
  lia.
Defined.

(** ** The claim on teardown *)

(** C9.  Whatever the QUIT exchange does, reply or raise, [quit] returns
    normally and closes the socket right after it; with the parser of either
    file the socket is closed exactly once more than before. *)
Theorem quit_closes_once :
  (forall (exchange : string -> M Reply) s,
      Common.quit exchange s = (Ok tt, logged [EvClose] (snd (exchange "QUIT" s))))
  /\ (forall s, exists s',
         Umailesp.quit s = (Ok tt, s')
         /\ count EvClose (trace s') = S (count EvClose (trace s)))
  /\ (forall s, exists s',
         Umailesp32.quit s = (Ok tt, s')
         /\ count EvClose (trace s') = S (count EvClose (trace s))).
Proof.
  split; [exact quit_always_closes|]. split; intros s; eexists.
  - unfold Umailesp.quit. rewrite quit_always_closes. split; [reflexivity|].
    destruct (Umailesp.cmd "QUIT" s) as [r s1] eqn:E.
    apply (esp_cmd_effects "QUIT" s r s1 eq_refl) in E.
    apply only_read_fields in E as (_ & _ & E & _).
    simpl. rewrite E. simpl. rewrite !count_app. simpl. lia.
  - unfold Umailesp32.quit. rewrite quit_always_closes. split; [reflexivity|].
    destruct (Umailesp32.cmd "QUIT" s) as [r s1] eqn:E.
    apply (esp32_cmd_effects "QUIT" s r s1 eq_refl) in E.
    apply only_read_fields in E as (_ & _ & E & _).
    simpl. rewrite E. simpl. rewrite !count_app. simpl. lia.
Qed.

(** ** The claim on body transmission *)

Lemma logged_logged a b s : logged b (logged a s) = logged (a ++ b) s.
Proof. unfold logged. simpl. now rewrite List.app_assoc. Qed.

(** C8.  [send content True], with the reply [250 OK] waiting, returns
    [(250, "OK")]; before that it writes the two lines of the MIME preamble
    (and, in umailesp.py, the empty line that ends the header block), then
    the content, then the DATA terminator, and nothing else. *)
Theorem send_mime content rest s :
  inbuf s = final_line "250" "OK" ++ rest ->
  (exists evs,
      Umailesp.send content true s = (Ok (250, "OK"), set_inbuf rest (logged evs s))
      /\ wire evs = String.concat EmptyString (map (fun l => l ++ Py.CRLF) mime_preamble)
                    ++ Py.CRLF ++ content ++ data_terminator)
  /\ (exists evs,
         Umailesp32.send content true s = (Ok (250, "OK"), set_inbuf rest (logged evs s))
         /\ wire evs = String.concat EmptyString (map (fun l => l ++ Py.CRLF) mime_preamble)
                       ++ content ++ data_terminator)
  /\ List.length mime_preamble = 2%nat.
Proof.
  intros Hin. split; [|split; [|reflexivity]].
  - exists ([EvWrite ("MIME-Version: 1.0" ++ Py.CRLF
                      ++ "Content-Type: text/plain; charset=UTF-8" ++ Py.CRLF);
             EvWrite Py.CRLF]
            ++ (if Py.is_empty content then [] else [EvWrite content])
            ++ [EvWrite data_terminator; EvSleep 100])%list.
    split.
    + unfold Umailesp.send, Umailesp.write, bind, sock_write, sleep, log.
      destruct content as [|ch content]; cbn [negb Py.is_empty ret];
        rewrite sock_readline_eq, !logged_logged;
        change (inbuf (logged _ s)) with (inbuf s); rewrite Hin; reflexivity.
    + destruct content as [|ch content]; [reflexivity|].
      cbn [Py.is_empty]. reflexivity.
  - exists ([EvWrite ("MIME-Version: 1.0" ++ Py.CRLF
                      ++ "Content-Type: text/plain; charset=UTF-8" ++ Py.CRLF)]
            ++ (if Py.is_empty content then [] else [EvWrite content])
            ++ [EvWrite data_terminator])%list.
    split.
    + unfold Umailesp32.send, Umailesp32.write, bind, sock_write, log.
      destruct content as [|ch content]; cbn [negb Py.is_empty ret];
        rewrite sock_readline_eq, !logged_logged;
        change (inbuf (logged _ s)) with (inbuf s); rewrite Hin; reflexivity.
    + destruct content as [|ch content]; [reflexivity|].
      cbn [Py.is_empty]. reflexivity.
Qed.

Lemma send_mime_witness :
  (exists evs,
      Umailesp.send "Hello" true (fresh (final_line "250" "OK"))
      = (Ok (250, "OK"), set_inbuf EmptyString (logged evs (fresh (final_line "250" "OK"))))
      /\ wire evs = String.concat EmptyString (map (fun l => l ++ Py.CRLF) mime_preamble)
                    ++ Py.CRLF ++ "Hello" ++ data_terminator)
  /\ (exists evs,
         Umailesp32.send "Hello" true (fresh (final_line "250" "OK"))
         = (Ok (250, "OK"), set_inbuf EmptyString (logged evs (fresh (final_line "250" "OK"))))
         /\ wire evs = String.concat EmptyString (map (fun l => l ++ Py.CRLF) mime_preamble)
                       ++ "Hello" ++ data_terminator)
  /\ List.length mime_preamble = 2%nat.
Proof.
  apply (send_mime "Hello" EmptyString (fresh (final_line "250" "OK"))).
  reflexivity.
Defined.

(** ** Replies on the wire *)

Lemma strip_ws_reply_line text :
  trimmed text = true -> Py.strip_ws (String " " (text ++ Py.CRLF)) = text.
Proof.
  unfold trimmed, Py.strip_ws. intros H. apply andb_true_iff in H as [Hf Hl].
  apply negb_true_iff in Hf. apply negb_true_iff in Hl.
  change (String " " (text ++ Py.CRLF)) with ((String " " text) ++ Py.CRLF).
  rewrite rstrip_with_app.
  2:{ intros ch Hch. cbn [Py.mem_char Py.CRLF] in Hch.
      destruct (Ascii.eqb_spec ch Py.CR) as [E|_]; [rewrite E; reflexivity|].
      destruct (Ascii.eqb_spec ch Py.LF) as [E|_]; [rewrite E; reflexivity | discriminate]. }
  destruct text as [|t0 text]; [reflexivity|].
  rewrite rstrip_with_nonempty; rewrite (rstrip_with_last _ _ Hl); [|discriminate].
  change (Py.lstrip_with Py.isspace (String " " (String t0 text)))
    with (Py.lstrip_with Py.isspace (String t0 text)).
  now apply lstrip_with_first.
Qed.

Lemma take_app_exact a b : Py.take (String.length a) (a ++ b) = a.
Proof. induction a as [|c a IH]; simpl; [now destruct b | now rewrite IH]. Qed.

Lemma drop_app_exact a b : Py.drop (String.length a) (a ++ b) = b.
Proof. induction a as [|c a IH]; simpl; [now destruct b | exact IH]. Qed.

(** A single-line reply in umailesp32.py: the code, the text, and one byte
    of what follows read ahead. *)
Lemma esp32_cmd_single_line c code text rest s :
  is_code code = true -> one_line text = true -> trimmed text = true ->
  Py.utf8_valid text = true ->
  first_is (fun ch => Ascii.eqb ch "-") rest = false ->
  inbuf s = final_line code text ++ rest ->
  Umailesp32.cmd c s
  = (Ok (code_value code, [text]),
     set_inbuf (Py.drop 1 rest) (logged [EvWrite (c ++ Py.CRLF)] s)).
Proof.
  intros Hcode Htext Htrim Hvalid Hrest Hin.
  assert (Hin' : inbuf s = code ++ (String " " (text ++ Py.CRLF) ++ rest)).
  { rewrite Hin. unfold final_line. rewrite !str_app_assoc. simpl.
    now rewrite !str_app_assoc. }
  assert (Hint := int_code code Hcode).
  assert (Htake : Py.take 3 (inbuf s) = code
                  /\ Py.drop 3 (inbuf s) = String " " (text ++ Py.CRLF) ++ rest
                  /\ Py.is_empty code = false).
  { rewrite Hin'. apply is_code_inv in Hcode as (a & b & d & -> & _).
    repeat split. }
  destruct Htake as (Ht & Hd & He).
  unfold Umailesp32.cmd, bind. cbn [sock_write log sock_read].
  change (inbuf (logged [EvWrite (c ++ Py.CRLF)] s)) with (inbuf s).
  rewrite Ht, Hd, He, Hint. rewrite sock_readline_eq.
  cbn [inbuf set_inbuf].
  replace (String " " (text ++ Py.CRLF) ++ rest)
    with ((String " " (text ++ String Py.CR EmptyString)) ++ String Py.LF rest)
    by (simpl; rewrite !str_app_assoc; reflexivity).
  rewrite split_line_one_line.
  2:{ change (String " " (text ++ String Py.CR EmptyString))
        with (String " " EmptyString ++ (text ++ String Py.CR EmptyString)).
      now rewrite !one_line_app, Htext. }
  cbn [fst snd].
  replace (String " " (text ++ String Py.CR EmptyString) ++ String Py.LF EmptyString)
    with (String " " (text ++ Py.CRLF))
    by (simpl; rewrite !str_app_assoc; reflexivity).
  rewrite (strip_ws_reply_line text Htrim).
  unfold decode at 1. rewrite Hvalid. unfold ret at 1. cbv beta iota.
  rewrite (while_unfold _ esp32_cmd_body_reads).
  unfold Umailesp32.cmd_body, bind, sock_read. cbn [inbuf set_inbuf].
  replace (String.eqb (Py.take 1 rest) "-") with false.
  2:{ destruct rest as [|r0 rest']; [reflexivity|]. simpl in Hrest.
      cbn [Py.take]. change (Py.take 0 rest') with EmptyString.
      unfold String.eqb. now rewrite Hrest. }
  unfold ret. reflexivity.
Qed.


Lemma scan_auths_fold l :
  forall init,
    fold_right
      (fun feature auths => if is_auth_feature feature then Some (mechanisms feature) else auths)
      init l
    = match find is_auth_feature l with
      | Some feature => Some (mechanisms feature)
      | None => init
      end.
Proof.
  induction l as [|x l IH]; intros init; simpl; [reflexivity|].
  destruct (is_auth_feature x); [reflexivity | apply IH].
Qed.

(** [login] reads the advertised mechanisms off the reply lines. *)
Lemma scan_auths_advertised resp : Common.scan_auths resp = advertised resp.
Proof.
  unfold Common.scan_auths, advertised.
  change (fun auths feature =>
            if String.eqb (Py.upper (Py.take 4 feature)) CMD_AUTH
            then Some (Py.split (Py.upper (Py.strip "=" (Py.drop 4 feature))))
            else auths)
    with (fun auths feature =>
            (fun feature auths =>
               if is_auth_feature feature then Some (mechanisms feature) else auths)
              feature auths).
  rewrite <- fold_left_rev_right, scan_auths_fold.
  now destruct (find is_auth_feature (rev resp)).
Qed.

(** ** The claim on authentication *)

Lemma esp_cmd_trace c s r s' :
  is_command c = true -> Umailesp.cmd c s = (r, s') ->
  trace s' = (trace s ++ [EvWrite (c ++ Py.CRLF); EvSleep 300])%list.
Proof.
  unfold is_command. intros Hc H. apply negb_true_iff in Hc.
  apply (esp_cmd_effects c s r s' Hc) in H.
  now apply only_read_fields in H as (_ & _ & -> & _).
Qed.









(** ** The claim on bootstrap *)

Lemma grows_refl s : grows s s.
Proof. unfold grows. repeat split. exists []. now rewrite List.app_nil_r. Qed.

Lemma grows_trans s1 s2 s3 : grows s1 s2 -> grows s2 s3 -> grows s1 s3.
Proof.
  intros (Hs & Hw & e1 & H1) (Hs' & Hw' & e2 & H2). unfold grows.
  split; [congruence|]. split; [congruence|].
  exists (e1 ++ e2)%list. now rewrite H2, H1, List.app_assoc.
Qed.

Lemma esp_cmd_grows c s r s' : Umailesp.cmd c s = (r, s') -> grows s s'.
Proof.
  intros H. apply esp_cmd_cases in H as [H _].
  apply only_read_fields in H as (_ & Hs & Ht & _ & Hw).
  unfold grows. simpl in *. split; [exact Hs|]. split; [exact Hw|]. eauto.
Qed.

Lemma esp_login_grows b64 u p s r s' :
  Umailesp.login b64 u p s = (r, s') -> grows s s'.
Proof.
  unfold Umailesp.login, bind, raise, ret. cbn [set_username].
  set (s0 := mkSession _ _ _ _ _ _).
  assert (G0 : grows s s0) by (subst s0; unfold grows; simpl; repeat split;
                               exists []; now rewrite List.app_nil_r).
  destruct (Umailesp.cmd _ s0) as [[[code resp]|e] s1] eqn:E1;
    apply esp_cmd_grows in E1; pose proof (grows_trans _ _ _ G0 E1) as G1.
  2:{ intros H; inversion H; subst; assumption. }
  destruct (negb (code =? 250)); [intros H; inversion H; subst; assumption|].
  destruct (Common.scan_auths resp) as [[|a auths]|];
    try (intros H; inversion H; subst; assumption).
  destruct (Py.mem AUTH_PLAIN (a :: auths)).
  - destruct (Umailesp.cmd _ s1) as [[[code2 resp2]|e] s2] eqn:E2;
      apply esp_cmd_grows in E2; pose proof (grows_trans _ _ _ G1 E2) as G2.
    + destruct (negb _); intros H; inversion H; subst; assumption.
    + intros H; inversion H; subst; assumption.
  - destruct (Py.mem AUTH_LOGIN (a :: auths));
      [|intros H; inversion H; subst; assumption].
    destruct (Umailesp.cmd _ s1) as [[[code2 resp2]|e] s2] eqn:E2;
      apply esp_cmd_grows in E2; pose proof (grows_trans _ _ _ G1 E2) as G2.
    2:{ intros H; inversion H; subst; assumption. }
    destruct (negb (code2 =? 334)); [intros H; inversion H; subst; assumption|].
    destruct (Umailesp.cmd _ s2) as [[[code3 resp3]|e] s3] eqn:E3;
      apply esp_cmd_grows in E3; pose proof (grows_trans _ _ _ G2 E3) as G3.
    2:{ intros H; inversion H; subst; assumption. }
    destruct (negb (code3 =? 334)); [intros H; inversion H; subst; assumption|].
    destruct (Umailesp.cmd _ s3) as [[[code4 resp4]|e] s4] eqn:E4;
      apply esp_cmd_grows in E4; pose proof (grows_trans _ _ _ G3 E4) as G4.
    + destruct (negb _); intros H; inversion H; subst; assumption.
    + intros H; inversion H; subst; assumption.
Qed.

Lemma wrap_socket_cases s :
  (exists m, wrap_socket s = (Raise (OSError m), s))
  \/ wrap_socket s = (Ok tt, upgraded s).
Proof. unfold wrap_socket, upgraded. destruct (wrap_err s); eauto. Qed.

(** umailesp.py does what C2 says.  Once the greeting carries 220 and EHLO is
    answered 250 with STARTTLS among the features, the constructor called
    without direct security writes STARTTLS next; and it returns normally
    only if STARTTLS was answered 220, the stream was then replaced by a
    secured one, and the EHLO sent over it was answered 250. *)
Lemma esp_init_starttls b64 host port u p t s greeting rest resp s2 :
  connect_err s = None ->
  split_line (inbuf s) = (greeting, rest) ->
  Py.int (Py.take 3 (Py.rstrip Py.CRLF greeting)) = Some 220 ->
  Umailesp.cmd ehlo_command (set_inbuf rest (with_username u s)) = (Ok (250, resp), s2) ->
  Py.mem CMD_STARTTLS resp = true ->
  (exists evs,
      trace (snd (Umailesp.__init__ b64 host port false u p t s))
      = (trace s2 ++ EvWrite (CMD_STARTTLS ++ Py.CRLF) :: evs)%list)
  /\ (forall sf,
         Umailesp.__init__ b64 host port false u p t s = (Ok tt, sf) ->
         exists r3 s3 r5 s5,
           Umailesp.cmd CMD_STARTTLS s2 = (Ok (220, r3), s3)
           /\ secured s3 = secured s
           /\ Umailesp.cmd ehlo_command (upgraded (logged [EvSleep 1000] s3))
              = (Ok (250, r5), s5)
           /\ grows s5 sf /\ secured sf = true).
Proof.
  intros Hc Hl Hg He Hm.
  assert (Hne : Py.is_empty greeting = false).
  { destruct greeting; [vm_compute in Hg; discriminate | reflexivity]. }
  assert (Hs2 : secured s2 = secured s /\ wrap_err s2 = wrap_err s).
  { apply esp_cmd_grows in He as (H1 & H2 & _). simpl in *. auto. }
  destruct Hs2 as [Hsec2 Hw2].
  unfold Umailesp.__init__, bind, try_except, sock_connect. cbn [set_username].
  change (mkSession u (inbuf s) (secured s) (trace s) (connect_err s) (wrap_err s))
    with (with_username u s).
  change (connect_err (with_username u s)) with (connect_err s). rewrite Hc.
  cbn [ret]. rewrite sock_readline_eq.
  change (inbuf (with_username u s)) with (inbuf s). rewrite Hl. cbn [fst snd].
  rewrite Hne, Hg. change (negb (220 =? 220)) with false. cbv beta iota.
  change (CMD_EHLO ++ " " ++ LOCAL_DOMAIN) with ehlo_command.
  rewrite He. change (negb (250 =? 250)) with false. cbv beta iota.
  rewrite Hm. cbn [negb andb]. cbv beta iota.
  destruct (Umailesp.cmd CMD_STARTTLS s2) as [[[code3 r3]|e3] s3] eqn:E3.
  2:{ apply esp_cmd_trace in E3; [|reflexivity]. split.
      - eexists. unfold snd. exact E3.
      - intros sf H; inversion H. }
  pose proof (esp_cmd_grows _ _ _ _ E3) as (Hsec3 & Hw3 & _).
  pose proof (esp_cmd_trace CMD_STARTTLS _ _ _ eq_refl E3) as T3.
  destruct (code3 =? 220) eqn:Ec3; cbn [negb].
  2:{ split.
      - eexists. unfold raise, snd. exact T3.
      - intros sf H; inversion H. }
  apply Z.eqb_eq in Ec3. subst code3.
  cbn [sleep log].
  destruct (wrap_socket_cases (logged [EvSleep 1000] s3)) as [(m & ->) | ->].
  { split.
    - eexists. unfold raise, snd, logged. cbn [trace]. rewrite T3, <- List.app_assoc.
      reflexivity.
    - intros sf H; inversion H. }
  cbv beta iota.
  destruct (Umailesp.cmd ehlo_command (upgraded (logged [EvSleep 1000] s3)))
    as [[[code5 r5]|e5] s5] eqn:E5.
  2:{ apply esp_cmd_grows in E5 as (_ & _ & evs & T5). split.
      - eexists. unfold snd. rewrite T5. cbn [upgraded logged trace].
        rewrite T3, <- !List.app_assoc. reflexivity.
      - intros sf H; inversion H. }
  pose proof (esp_cmd_grows _ _ _ _ E5) as G5.
  destruct G5 as (Hsec5 & Hw5 & evs5 & T5).
  assert (T5' : exists evs, trace s5 = (trace s2 ++ EvWrite (CMD_STARTTLS ++ Py.CRLF) :: evs)%list).
  { eexists. rewrite T5. cbn [upgraded logged trace]. rewrite T3, <- !List.app_assoc.
    reflexivity. }
  destruct (code5 =? 250) eqn:Ec5; cbn [negb].
  2:{ split; [exact T5'|]. intros sf H; inversion H. }
  apply Z.eqb_eq in Ec5. subst code5. cbn [ret].
  assert (Fin : forall r sf,
             match u, p with
             | Some u0, Some p0 =>
                 if (Py.truthy u && Py.truthy p)%bool
                 then fun s => match Umailesp.login b64 u0 p0 s with
                               | (Ok a, s') => (fun _ : Reply => ret tt) a s'
                               | (Raise e, s') => (Raise e, s')
                               end
                 else ret tt
             | _, _ => ret tt
             end s5 = (r, sf) -> grows s5 sf).
  { intros r sf. destruct u as [u0|]; [destruct p as [p0|]|];
      try (unfold ret; intros H; inversion H; subst; apply grows_refl).
    destruct (Py.truthy (Some u0) && Py.truthy (Some p0))%bool;
      [|unfold ret; intros H; inversion H; subst; apply grows_refl].
    destruct (Umailesp.login b64 u0 p0 s5) as [[a|e] s6] eqn:L;
      apply esp_login_grows in L; unfold ret; intros H; inversion H; subst; exact L. }
  split.
  - match goal with
    | |- exists _, trace (snd ?X) = _ =>
        destruct (Fin (fst X) (snd X) (surjective_pairing X)) as (_ & _ & evs & TF)
    end.
    destruct T5' as (evs' & T5').
    eexists. rewrite TF, T5', <- List.app_assoc. reflexivity.
  - intros sf H. exists r3, s3, r5, s5.
    split; [reflexivity|]. split; [congruence|]. split; [exact E5|].
    pose proof (Fin _ _ H) as G. split; [exact G|].
    destruct G as (Gs & _). rewrite Gs, Hsec5. reflexivity.
Qed.

(** The bootstrap scenario in umailesp.py: STARTTLS, the upgrade, EHLO again,
    then [login] with its own EHLO and AUTH PLAIN. *)
Example esp_init_starttls_scenario :
  Umailesp.__init__ toy_b64 "mail.example.com" 587 false (Some "user") (Some "pass") 10
    (fresh starttls_server)
  = (Ok tt,
     mkSession (Some "user") EmptyString true
       [EvWrite (ehlo_command ++ Py.CRLF); EvSleep 300;
        EvWrite (CMD_STARTTLS ++ Py.CRLF); EvSleep 300; EvSleep 1000; EvWrap;
        EvWrite (ehlo_command ++ Py.CRLF); EvSleep 300;
        EvWrite (ehlo_command ++ Py.CRLF); EvSleep 300;
        EvWrite (esp_plain_command toy_b64 "user" "pass" ++ Py.CRLF); EvSleep 300]
       None None).
Proof. vm_compute. reflexivity. Qed.

(** C2 fails in umailesp32.py.  [import ssl] at the head of the constructor
    rebinds its parameter [ssl], so the value passed for it is never looked
    at; called with [ssl = False] on a server that greets with 220 and
    answers EHLO with 250 and the feature STARTTLS, the constructor wraps the
    socket at once, sends EHLO and returns: STARTTLS is never sent and EHLO
    is sent once.  When the TLS wrap fails it raises before it reads the
    greeting. *)
Theorem esp32_init_skips_starttls :
  (forall b64 host port ssl u p t,
      Umailesp32.__init__ b64 host port ssl u p t
      = Umailesp32.__init__ b64 host port true u p t)
  /\ fst (Umailesp32.cmd ehlo_command
            (upgraded (fresh (final_line "250" "STARTTLS" ++ final_line "220" "Ready to start TLS"))))
     = Ok (250, ["STARTTLS"])
  /\ Py.mem CMD_STARTTLS ["STARTTLS"] = true
  /\ Umailesp32.__init__ toy_b64 "mail.example.com" 587 false None None 10
       (fresh plain_starttls_server)
     = (Ok tt,
        mkSession None ("20 Ready to start TLS" ++ Py.CRLF) true
          [EvWrap; EvWrite (ehlo_command ++ Py.CRLF)] None None)
  /\ Umailesp32.__init__ toy_b64 "mail.example.com" 587 false None None 10
       (mkSession None plain_starttls_server false [] None (Some "handshake failed"))
     = (Raise (OSError "handshake failed"),
        mkSession None plain_starttls_server false [] None (Some "handshake failed")).
Proof.
  split; [reflexivity|]. repeat split; vm_compute; reflexivity.
Qed.

(** * Further properties *)

(** ** [umailesp.cmd]: errors and edge cases of the parser *)












(** X4.  [cmd] touches nothing but the wire: in umailesp.py it writes its
    command line and sleeps 0.3 s, or writes nothing when the command is the
    placeholder of the greeting; in umailesp32.py it writes its command
    line.  In neither file does it close or wrap the socket or change the
    stored user name, whatever the peer answers. *)
Theorem cmd_frame c s :
  (trace (snd (Umailesp.cmd c s)) = (trace s ++ esp_cmd_events c)%list
   /\ username (snd (Umailesp.cmd c s)) = username s
   /\ secured (snd (Umailesp.cmd c s)) = secured s)
  /\ (trace (snd (Umailesp32.cmd c s)) = (trace s ++ [EvWrite (c ++ Py.CRLF)])%list
      /\ username (snd (Umailesp32.cmd c s)) = username s
      /\ secured (snd (Umailesp32.cmd c s)) = secured s).
Proof.
  split.
  - destruct (Umailesp.cmd c s) as [r s'] eqn:E.
    apply esp_cmd_cases in E as [E _].
    apply only_read_fields in E as (Hu & Hs & Ht & _). simpl in *. auto.
  - destruct (Umailesp32.cmd c s) as [r s'] eqn:E.
    apply esp32_cmd_cases in E as [E _].
    apply only_read_fields in E as (Hu & Hs & Ht & _). simpl in *. auto.
Qed.

(** ** [umailesp32.cmd]: what it reads and what it raises *)

(** X5.  After a single-line reply, its text well-formed UTF-8,
    [umailesp32.cmd] reads one byte more, to look for a dash: when the peer
    has already sent something else that does not begin with a dash, its
    first byte is consumed and lost to the next read. *)
Theorem esp32_cmd_reads_one_byte_ahead c code text rest s :
  is_code code = true -> one_line text = true -> trimmed text = true ->
  Py.utf8_valid text = true ->
  first_is (fun ch => Ascii.eqb ch "-") rest = false ->
  inbuf s = final_line code text ++ rest ->
  Umailesp32.cmd c s
  = (Ok (code_value code, [text]),
     set_inbuf (Py.drop 1 rest) (logged [EvWrite (c ++ Py.CRLF)] s)).
Proof.
  intros Hcode Htext Htrim Hvalid Hrest Hin.
  now apply esp32_cmd_single_line.
Qed.

Lemma esp32_cmd_reads_one_byte_ahead_witness :
  Umailesp32.cmd "MAIL FROM: <a@b>" (fresh (final_line "250" "OK" ++ final_line "550" "no"))
  = (Ok (code_value "250", ["OK"]),
     set_inbuf (Py.drop 1 (final_line "550" "no"))
       (logged [EvWrite ("MAIL FROM: <a@b>" ++ Py.CRLF)]
          (fresh (final_line "250" "OK" ++ final_line "550" "no")))).
Proof.
  apply (esp32_cmd_reads_one_byte_ahead "MAIL FROM: <a@b>" "250" "OK" (final_line "550" "no"));
    reflexivity.
Defined.




(** ** [login]: what it returns, stores and sends *)

Lemma esp_cmd_username c s r s' :
  Umailesp.cmd c s = (r, s') -> username s' = username s.
Proof.
  intros H. apply esp_cmd_cases in H as [H _].
  now apply only_read_fields in H as (Hu & _).
Qed.

Lemma esp32_cmd_username c s r s' :
  Umailesp32.cmd c s = (r, s') -> username s' = username s.
Proof.
  intros H. apply esp32_cmd_cases in H as [H _].
  now apply only_read_fields in H as (Hu & _).
Qed.

Ltac finish_login :=
  let H := fresh "H" in
  intros H; inversion H; subst;
  split; [congruence | try discriminate].

Ltac finish_auth :=
  match goal with
  | |- context [negb ((?c =? 235) || (?c =? 503))] =>
      let Ec := fresh "Ec" in
      let H := fresh "H" in
      let H0 := fresh "H0" in
      destruct ((c =? 235) || (c =? 503))%bool eqn:Ec; cbn [negb];
      intros H; inversion H; subst;
      (split; [congruence|]);
      first [ discriminate
            | intros ? ? H0; inversion H0; subst;
              apply orb_true_iff in Ec as [Ec|Ec]; apply Z.eqb_eq in Ec; auto ]
  end.

Lemma esp_login_cases b64 u p s r s' :
  Umailesp.login b64 u p s = (r, s') ->
  username s' = Some u
  /\ (forall code resp, r = Ok (code, resp) -> code = 235 \/ code = 503).
Proof.
  unfold Umailesp.login, bind, raise, ret. cbn [set_username].
  set (s0 := mkSession _ _ _ _ _ _).
  assert (U0 : username s0 = Some u) by reflexivity.
  destruct (Umailesp.cmd _ s0) as [[[code resp]|e] s1] eqn:E1;
    apply esp_cmd_username in E1; [|finish_login].
  destruct (negb (code =? 250)); [finish_login|].
  destruct (Common.scan_auths resp) as [[|a auths]|]; try finish_login.
  destruct (Py.mem AUTH_PLAIN (a :: auths)).
  - destruct (Umailesp.cmd _ s1) as [[[code2 resp2]|e] s2] eqn:E2;
      apply esp_cmd_username in E2; [|finish_login].
    finish_auth.
  - destruct (Py.mem AUTH_LOGIN (a :: auths)); [|finish_login].
    destruct (Umailesp.cmd _ s1) as [[[code2 resp2]|e] s2] eqn:E2;
      apply esp_cmd_username in E2; [|finish_login].
    destruct (negb (code2 =? 334)); [finish_login|].
    destruct (Umailesp.cmd _ s2) as [[[code3 resp3]|e] s3] eqn:E3;
      apply esp_cmd_username in E3; [|finish_login].
    destruct (negb (code3 =? 334)); [finish_login|].
    destruct (Umailesp.cmd _ s3) as [[[code4 resp4]|e] s4] eqn:E4;
      apply esp_cmd_username in E4; [|finish_login].
    finish_auth.
Qed.

Lemma esp32_login_cases b64 u p s r s' :
  Umailesp32.login b64 u p s = (r, s') ->
  username s' = Some u
  /\ (forall code resp, r = Ok (code, resp) -> code = 235 \/ code = 503).
Proof.
  unfold Umailesp32.login, bind, raise, ret. cbn [set_username].
  set (s0 := mkSession _ _ _ _ _ _).
  assert (U0 : username s0 = Some u) by reflexivity.
  destruct (Umailesp32.cmd _ s0) as [[[code resp]|e] s1] eqn:E1;
    apply esp32_cmd_username in E1; [|finish_login].
  destruct (negb (code =? 250)); [finish_login|].
  destruct (Common.scan_auths resp) as [[|a auths]|]; try finish_login.
  destruct (Py.mem AUTH_PLAIN (a :: auths)).
  - destruct (Umailesp32.cmd _ s1) as [[[code2 resp2]|e] s2] eqn:E2;
      apply esp32_cmd_username in E2; [|finish_login].
    finish_auth.
  - destruct (Py.mem AUTH_LOGIN (a :: auths)); [|finish_login].
    destruct (Umailesp32.cmd _ s1) as [[[code2 resp2]|e] s2] eqn:E2;
      apply esp32_cmd_username in E2; [|finish_login].
    destruct (negb (code2 =? 334)); [finish_login|].
    destruct (Umailesp32.cmd _ s2) as [[[code3 resp3]|e] s3] eqn:E3;
      apply esp32_cmd_username in E3; [|finish_login].
    finish_auth.
Qed.

(** X7.  In both files [login] returns a reply only when the last status is
    235 (authenticated) or 503 (already authenticated); with any other
    outcome it raises. *)
Theorem login_returns_235_or_503 b64 u p s code resp s' :
  (Umailesp.login b64 u p s = (Ok (code, resp), s') -> code = 235 \/ code = 503)
  /\ (Umailesp32.login b64 u p s = (Ok (code, resp), s') -> code = 235 \/ code = 503).
Proof.
  split; intros H.
  - apply esp_login_cases in H as [_ H]. now apply (H code resp).
  - apply esp32_login_cases in H as [_ H]. now apply (H code resp).
Qed.

Lemma login_returns_235_or_503_witness :
  (235 = 235 \/ 235 = 503) /\ (503 = 235 \/ 503 = 503).
Proof.
  split.
  - apply (proj1 (login_returns_235_or_503 toy_b64 "user" "pass" (fresh auth_server)
                    235 ["Accepted"]
                    (logged (esp_cmd_events ehlo_command ++ esp_cmd_events
                               (esp_plain_command toy_b64 "user" "pass"))
                       (with_user "user" (fresh EmptyString))))).
    vm_compute. reflexivity.
  - apply (proj2 (login_returns_235_or_503 toy_b64 "user" "pass"
                    (fresh (final_line "250" "AUTH PLAIN" ++ "x"
                            ++ final_line "503" "Already authenticated"))
                    503 ["Already authenticated"]
                    (logged [EvWrite (ehlo_command ++ Py.CRLF);
                             EvWrite (esp32_plain_command toy_b64 "user" "pass" ++ Py.CRLF)]
                       (with_user "user" (fresh EmptyString))))).
    vm_compute. reflexivity.
Defined.

(** X8.  [login] stores the user name it is given before anything else: in
    both files the session holds it afterwards whether [login] returned or
    raised. *)
Theorem login_stores_username b64 u p s :
  username (snd (Umailesp.login b64 u p s)) = Some u
  /\ username (snd (Umailesp32.login b64 u p s)) = Some u.
Proof.
  split.
  - destruct (Umailesp.login b64 u p s) as [r s'] eqn:E.
    now apply esp_login_cases in E as [E _].
  - destruct (Umailesp32.login b64 u p s) as [r s'] eqn:E.
    now apply esp32_login_cases in E as [E _].
Qed.

(** X9.  Unless its EHLO is answered with status 250, [login] raises and
    stops there: the session is left as the EHLO exchange left it, so no
    AUTH command and no credential has been sent.  This holds in both
    files. *)
Theorem login_stops_without_ehlo b64 u p s r s1 :
  (forall resp, r <> Ok (250, resp)) ->
  (Umailesp.cmd ehlo_command (with_user u s) = (r, s1) ->
   exists e, Umailesp.login b64 u p s = (Raise e, s1))
  /\ (Umailesp32.cmd ehlo_command (with_user u s) = (r, s1) ->
      exists e, Umailesp32.login b64 u p s = (Raise e, s1)).
Proof.
  intros Hr. split; intros He.
  - unfold Umailesp.login, bind, raise. cbn [set_username].
    change (mkSession (Some u) (inbuf s) (secured s) (trace s) (connect_err s) (wrap_err s))
      with (with_user u s).
    change (CMD_EHLO ++ " " ++ LOCAL_DOMAIN) with ehlo_command. rewrite He.
    destruct r as [[code resp]|e]; [|eauto].
    destruct (code =? 250) eqn:Ec; cbn [negb]; [|eauto].
    apply Z.eqb_eq in Ec. subst. now destruct (Hr resp).
  - unfold Umailesp32.login, bind, raise. cbn [set_username].
    change (mkSession (Some u) (inbuf s) (secured s) (trace s) (connect_err s) (wrap_err s))
      with (with_user u s).
    change (CMD_EHLO ++ " " ++ LOCAL_DOMAIN) with ehlo_command. rewrite He.
    destruct r as [[code resp]|e]; [|eauto].
    destruct (code =? 250) eqn:Ec; cbn [negb]; [|eauto].
    apply Z.eqb_eq in Ec. subst. now destruct (Hr resp).
Qed.

Lemma login_stops_without_ehlo_witness :
  (exists e,
      Umailesp.login toy_b64 "user" "pass" (fresh (final_line "421" "Busy"))
      = (Raise e, logged (esp_cmd_events ehlo_command) (with_user "user" (fresh EmptyString))))
  /\ (exists e,
         Umailesp32.login toy_b64 "user" "pass" (fresh (final_line "421" "Busy"))
         = (Raise e, logged [EvWrite (ehlo_command ++ Py.CRLF)]
                       (with_user "user" (fresh EmptyString)))).
Proof.
  split.
  - apply (proj1 (login_stops_without_ehlo toy_b64 "user" "pass"
                    (fresh (final_line "421" "Busy")) (Ok (421, ["Busy"]))
                    (logged (esp_cmd_events ehlo_command)
                       (with_user "user" (fresh EmptyString)))
                    ltac:(discriminate))).
    vm_compute. reflexivity.
  - apply (proj2 (login_stops_without_ehlo toy_b64 "user" "pass"
                    (fresh (final_line "421" "Busy")) (Ok (421, ["Busy"]))
                    (logged [EvWrite (ehlo_command ++ Py.CRLF)]
                       (with_user "user" (fresh EmptyString)))
                    ltac:(discriminate))).
    vm_compute. reflexivity.
Defined.

(** X10.  The mechanisms [login] works with are those of the last reply line
    whose first four characters spell AUTH in any case; the lines before it
    do not count, and without such a line there are none. *)
Theorem scan_auths_last_feature resp :
  Common.scan_auths resp = option_map mechanisms (find is_auth_feature (rev resp)).
Proof. rewrite scan_auths_advertised. reflexivity. Qed.

(** ** [to]: outcomes, order of the commands, retries *)

Lemma to_attempt_ok_354 (exchange : string -> M Reply) mf addrs s code resp s' :
  Common.to_attempt exchange mf addrs s = (Ok (code, resp), s') -> code = 354.
Proof.
  unfold Common.to_attempt, bind, raise, ret.
  destruct (exchange _ s) as [[[c1 r1]|e] s1]; [|discriminate].
  destruct (negb (c1 =? 250)); [discriminate|].
  destruct (Common.rcpt_loop exchange _ 0 c1 r1 s1) as [[[[n c2] r2]|e] s2];
    [|discriminate].
  destruct (n =? _); [discriminate|].
  destruct (exchange "DATA" s2) as [[[c3 r3]|e] s3]; [|discriminate].
  destruct (c3 =? 354) eqn:Ec; cbn [negb]; [|discriminate].
  intros H; inversion H; subst. now apply Z.eqb_eq.
Qed.

Lemma to_loop_outcome (exchange : string -> M Reply) mf addrs retries attempts :
  forall s r s',
    Common.to_loop exchange mf addrs retries attempts s = (Ok r, s') ->
    match r with
    | Some (code, _) => code = 354
    | None => Forall (fun attempt => attempt < retries - 1) attempts
    end.
Proof.
  induction attempts as [|a attempts IH]; intros s r s'.
  - cbn [Common.to_loop]. unfold ret. intros H; inversion H; subst. constructor.
  - cbn [Common.to_loop]. unfold try_except, bind.
    destruct (Common.to_attempt exchange mf addrs s) as [[[code resp]|e] s1] eqn:A.
    + unfold ret. intros H; inversion H; subst.
      now apply to_attempt_ok_354 in A.
    + destruct (a <? retries - 1) eqn:Ea; [|unfold raise; discriminate].
      cbn [sleep log]. intros H. apply IH in H.
      destruct r as [[code resp]|]; [exact H|].
      constructor; [now apply Z.ltb_lt | exact H].
Qed.

Lemma to_outcome (exchange : string -> M Reply) addrs mail_from retries s r s' :
  Common.to exchange addrs mail_from retries s = (Ok r, s') ->
  match r with
  | Some (code, _) => code = 354
  | None => retries <= 0
  end.
Proof.
  unfold Common.to, bind, get_username. intros H. apply to_loop_outcome in H.
  destruct r as [[code resp]|]; [exact H|].
  destruct (Z.le_gt_cases retries 0) as [Hle|Hgt]; [exact Hle|]. exfalso.
  rewrite Forall_forall in H. specialize (H (retries - 1)).
  assert (In (retries - 1) (Py.range retries)).
  { unfold Py.range. apply in_map_iff. exists (Z.to_nat (retries - 1)).
    split; [lia|]. apply in_seq. lia. }
  specialize (H H0). lia.
Qed.

(** X11.  When [to] returns a reply, in either file, its status is 354: any
    other answer to DATA, like any refusal before it, ends in an exception
    or in another attempt. *)
Theorem to_returns_354 addrs mail_from retries s code resp s' :
  (Umailesp.to addrs mail_from retries s = (Ok (Some (code, resp)), s') -> code = 354)
  /\ (Umailesp32.to addrs mail_from retries s = (Ok (Some (code, resp)), s') -> code = 354).
Proof. split; intros H; exact (to_outcome _ _ _ _ _ _ _ H). Qed.

Lemma to_returns_354_witness : 354 = 354 /\ 354 = 354.
Proof.
  split.
  - apply (proj1 (to_returns_354 (AddrList ["a@y"; "b@y"]) (Some "me@x") 3
                    (fresh mixed_server) 354 ["go ahead"]
                    (logged [EvWrite ("MAIL FROM: <me@x>" ++ Py.CRLF); EvSleep 300;
                             EvWrite ("RCPT TO: <a@y>" ++ Py.CRLF); EvSleep 300;
                             EvWrite ("RCPT TO: <b@y>" ++ Py.CRLF); EvSleep 300;
                             EvWrite ("DATA" ++ Py.CRLF); EvSleep 300]
                       (fresh EmptyString)))).
    vm_compute. reflexivity.
  - apply (proj2 (to_returns_354 (AddrStr "a@y") (Some "me@x") 1
                    (fresh (final_line "250" "OK" ++ "x" ++ final_line "250" "OK" ++ "x"
                            ++ final_line "354" "go ahead"))
                    354 ["go ahead"]
                    (logged [EvWrite ("MAIL FROM: <me@x>" ++ Py.CRLF);
                             EvWrite ("RCPT TO: <a@y>" ++ Py.CRLF);
                             EvWrite ("DATA" ++ Py.CRLF)]
                       (fresh EmptyString)))).
    vm_compute. reflexivity.
Defined.

(** X12.  [to] returns [None] only when [retries] is zero or negative: with
    [retries >= 1] it ends either with a 354 reply or with an exception,
    because the last attempt re-raises what it caught. *)
Theorem to_none_only_without_retries addrs mail_from retries s s' :
  (Umailesp.to addrs mail_from retries s = (Ok None, s') -> retries <= 0)
  /\ (Umailesp32.to addrs mail_from retries s = (Ok None, s') -> retries <= 0).
Proof. split; intros H; exact (to_outcome _ _ _ _ _ _ _ H). Qed.

Lemma to_none_only_without_retries_witness : 0 <= 0 /\ -3 <= 0.
Proof.
  split.
  - apply (proj1 (to_none_only_without_retries (AddrStr "a@y") None 0
                    (fresh mixed_server) (fresh mixed_server))).
    reflexivity.
  - apply (proj2 (to_none_only_without_retries (AddrStr "a@y") None (-3)
                    (fresh mixed_server) (fresh mixed_server))).
    reflexivity.
Defined.

Lemma refusals_all codes :
  forallb (fun c => negb (accepted c)) codes = true ->
  refusals codes = Z.of_nat (List.length codes).
Proof.
  unfold refusals. intros H. f_equal. induction codes as [|c codes IH]; [reflexivity|].
  simpl in *. apply andb_true_iff in H as [Hc H]. rewrite Hc. simpl. now rewrite IH.
Qed.

Lemma to_attempt_all_refused (exchange : string -> M Reply) mf addrs s r0 s1 codes s2 :
  exchange ("MAIL FROM: <" ++ mf ++ ">") s = (Ok (250, r0), s1) ->
  rcpt_codes exchange (recipients addrs) s1 = Some (codes, s2) ->
  forallb (fun c => negb (accepted c)) codes = true ->
  exists e, Common.to_attempt exchange mf addrs s = (Raise e, s2)
            /\ is_all_refused e = true.
Proof.
  intros Hm Hr Ha. unfold Common.to_attempt, bind. rewrite Hm.
  change (negb (250 =? 250)) with false. cbv iota.
  fold (recipients addrs).
  destruct (rcpt_loop_codes exchange _ 0 250 r0 s1 codes s2 Hr)
    as [Hlen (code' & resp' & ->)].
  rewrite (refusals_all codes Ha), Hlen, Z.add_0_l, Z.eqb_refl.
  eexists. split; reflexivity.
Qed.

(** X13.  In an attempt of [to] where MAIL FROM is answered with 250 and no
    recipient is accepted, the attempt raises the all-recipients-refused
    error right after the last RCPT TO exchange, without sending DATA.  An
    empty list of recipients is such a case: the error is raised although
    nothing was refused.  This holds in both files. *)
Theorem to_all_recipients_refused mf addrs s r0 s1 codes s2 :
  forallb (fun c => negb (accepted c)) codes = true ->
  (Umailesp.cmd ("MAIL FROM: <" ++ mf ++ ">") s = (Ok (250, r0), s1) ->
   rcpt_codes Umailesp.cmd (recipients addrs) s1 = Some (codes, s2) ->
   exists e, Common.to_attempt Umailesp.cmd mf addrs s = (Raise e, s2)
             /\ is_all_refused e = true)
  /\ (Umailesp32.cmd ("MAIL FROM: <" ++ mf ++ ">") s = (Ok (250, r0), s1) ->
      rcpt_codes Umailesp32.cmd (recipients addrs) s1 = Some (codes, s2) ->
      exists e, Common.to_attempt Umailesp32.cmd mf addrs s = (Raise e, s2)
                /\ is_all_refused e = true).
Proof.
  intros Ha. split; intros Hm Hr; eapply to_attempt_all_refused; eauto.
Qed.

Lemma to_all_recipients_refused_witness :
  (exists e,
      Common.to_attempt Umailesp.cmd "me@x" (AddrList []) (fresh (final_line "250" "OK"))
      = (Raise e, logged [EvWrite ("MAIL FROM: <me@x>" ++ Py.CRLF); EvSleep 300]
                    (fresh EmptyString))
      /\ is_all_refused e = true)
  /\ (exists e,
         Common.to_attempt Umailesp32.cmd "me@x" (AddrList []) (fresh (final_line "250" "OK"))
         = (Raise e, logged [EvWrite ("MAIL FROM: <me@x>" ++ Py.CRLF)] (fresh EmptyString))
         /\ is_all_refused e = true).
Proof.
  split.
  - apply (proj1 (to_all_recipients_refused "me@x" (AddrList [])
                    (fresh (final_line "250" "OK")) ["OK"]
                    (logged [EvWrite ("MAIL FROM: <me@x>" ++ Py.CRLF); EvSleep 300]
                       (fresh EmptyString))
                    [] _ eq_refl)); vm_compute; reflexivity.
  - apply (proj2 (to_all_recipients_refused "me@x" (AddrList [])
                    (fresh (final_line "250" "OK")) ["OK"]
                    (logged [EvWrite ("MAIL FROM: <me@x>" ++ Py.CRLF)] (fresh EmptyString))
                    [] _ eq_refl)); vm_compute; reflexivity.
Defined.

Lemma writes_app a b : writes (a ++ b) = (writes a ++ writes b)%list.
Proof.
  induction a as [|e a IH]; simpl; [reflexivity|].
  destruct e; simpl; now rewrite IH.
Qed.

Section Order.

Variable cmd : string -> M Reply.
Variable pause : list event.

Hypothesis cmd_effects :
  forall c s r s', String.eqb c "Initial greeting" = false ->
    cmd c s = (r, s') -> only_read (logged (EvWrite (c ++ Py.CRLF) :: pause) s) s'.

Hypothesis pause_cases : pause = [] \/ pause = [EvSleep 300].

Lemma cmd_writes_line c s r s' :
  String.eqb c "Initial greeting" = false -> cmd c s = (r, s') ->
  exists evs, trace s' = (trace s ++ evs)%list /\ writes evs = [c ++ Py.CRLF].
Proof.
  intros Hc H. exists (EvWrite (c ++ Py.CRLF) :: pause). split.
  - exact (cmd_trace cmd pause cmd_effects c s r s' Hc H).
  - now destruct pause_cases as [-> | ->].
Qed.

Ltac writes_of E :=
  match type of E with
  | cmd ?c _ = _ => apply (cmd_writes_line c _ _ _ eq_refl) in E
  end.

(** The loop over the recipients writes RCPT TO for the addresses in their
    order, as far as it gets; when it completes it has written them all. *)
Lemma rcpt_loop_writes addrs :
  forall n code resp s r s',
    Common.rcpt_loop cmd addrs n code resp s = (r, s') ->
    exists evs k,
      trace s' = (trace s ++ evs)%list
      /\ writes evs = firstn k (map rcpt_line addrs)
      /\ (k <= List.length addrs)%nat
      /\ (forall x, r = Ok x -> k = List.length addrs).
Proof.
  induction addrs as [|addr rest IH]; intros n code resp s r s' H.
  - inversion H; subst. exists [], O. rewrite List.app_nil_r. repeat split; auto.
  - cbn [Common.rcpt_loop] in H. unfold bind in H.
    destruct (cmd ("RCPT TO: <" ++ addr ++ ">") s) as [[[code1 resp1]|e] s1] eqn:E;
      writes_of E; destruct E as (ev1 & T1 & W1).
    + apply IH in H as (evs & k & T & W & Hk & Hok).
      exists (ev1 ++ evs)%list, (S k). split; [|split; [|split]].
      * now rewrite T, T1, List.app_assoc.
      * rewrite writes_app, W1, W. reflexivity.
      * simpl. lia.
      * intros x Hx. simpl. f_equal. now apply (Hok x).
    + inversion H; subst. exists ev1, 1%nat. split; [exact T1|]. split; [|split].
      * rewrite W1. simpl. now destruct rest.
      * simpl. lia.
      * discriminate.
Qed.

Lemma firstn_app_short {A} k (l m : list A) :
  (k <= List.length l)%nat -> firstn k (l ++ m) = firstn k l.
Proof.
  intros H. rewrite firstn_app. replace (k - List.length l)%nat with O by lia.
  simpl. now rewrite List.app_nil_r.
Qed.

Lemma attempt_lines_part mf l k :
  (k <= List.length l)%nat ->
  firstn (S k) (attempt_lines mf l) = mail_line mf :: firstn k (map rcpt_line l).
Proof.
  intros H. unfold attempt_lines. cbn [firstn].
  now rewrite firstn_app_short by (now rewrite List.length_map).
Qed.

Lemma attempt_lines_all mf l :
  firstn (S (S (List.length l))) (attempt_lines mf l)
  = (mail_line mf :: map rcpt_line l ++ [data_line])%list.
Proof.
  apply firstn_all2. unfold attempt_lines.
  change (List.length (mail_line mf :: (map rcpt_line l ++ [data_line])%list))
    with (S (List.length (map rcpt_line l ++ [data_line])%list)).
  rewrite List.length_app, List.length_map. simpl. lia.
Qed.

Lemma to_attempt_writes mf addrs s r s' :
  Common.to_attempt cmd mf addrs s = (r, s') ->
  exists evs k,
    trace s' = (trace s ++ evs)%list
    /\ (1 <= k)%nat
    /\ writes evs = firstn k (attempt_lines mf (recipients addrs)).
Proof.
  unfold Common.to_attempt, bind, raise, ret. fold (recipients addrs).
  destruct (cmd ("MAIL FROM: <" ++ mf ++ ">") s) as [[[code resp]|e] s1] eqn:E;
    writes_of E; destruct E as (ev1 & T1 & W1).
  2:{ intros H; inversion H; subst. exists ev1, 1%nat.
      split; [exact T1|]. split; [lia|]. now rewrite W1. }
  destruct (negb (code =? 250)).
  { intros H; inversion H; subst. exists ev1, 1%nat.
    split; [exact T1|]. split; [lia|]. now rewrite W1. }
  destruct (Common.rcpt_loop cmd (recipients addrs) 0 code resp s1)
    as [[[[n code2] resp2]|e] s2] eqn:R;
    apply rcpt_loop_writes in R as (ev2 & k & T2 & W2 & Hk & Hok).
  2:{ intros H; inversion H; subst. exists (ev1 ++ ev2)%list, (S k).
      split; [now rewrite T2, T1, List.app_assoc|]. split; [lia|].
      now rewrite writes_app, W1, W2, attempt_lines_part. }
  specialize (Hok _ eq_refl). subst k.
  assert (W12 : writes (ev1 ++ ev2)
                = firstn (S (List.length (recipients addrs)))
                    (attempt_lines mf (recipients addrs)))
    by (now rewrite writes_app, W1, W2, attempt_lines_part).
  destruct (n =? _).
  { intros H; inversion H; subst.
    exists (ev1 ++ ev2)%list, (S (List.length (recipients addrs))).
    split; [now rewrite T2, T1, List.app_assoc|]. split; [lia | exact W12]. }
  assert (Fin : forall r3 s3, cmd "DATA" s2 = (r3, s3) ->
            exists evs k, trace s3 = (trace s ++ evs)%list /\ (1 <= k)%nat
                          /\ writes evs = firstn k (attempt_lines mf (recipients addrs))).
  { intros r3 s3 D. writes_of D. destruct D as (ev3 & T3 & W3).
    exists (ev1 ++ ev2 ++ ev3)%list, (S (S (List.length (recipients addrs)))).
    split; [now rewrite T3, T2, T1, <- !List.app_assoc|]. split; [lia|].
    rewrite !writes_app, W1, W2, W3, attempt_lines_all.
    rewrite firstn_all2 by (now rewrite List.length_map). reflexivity. }
  destruct (cmd "DATA" s2) as [[[code3 resp3]|e] s3] eqn:D.
  - destruct (negb (code3 =? 354)); intros H; inversion H; subst;
      exact (Fin _ _ eq_refl).
  - intros H; inversion H; subst. exact (Fin _ _ eq_refl).
Qed.

End Order.

(** X14.  Whatever the server answers, the command lines that one attempt
    of [to] writes are an initial part of MAIL FROM, RCPT TO for each
    recipient in the order given, DATA; MAIL FROM is always among them.  So
    no RCPT TO is sent before MAIL FROM, no DATA before every recipient has
    been tried, and nothing else is written.  This holds in both files. *)
Theorem to_attempt_protocol_order mf addrs s :
  (exists evs k,
      trace (snd (Common.to_attempt Umailesp.cmd mf addrs s)) = (trace s ++ evs)%list
      /\ (1 <= k)%nat
      /\ writes evs = firstn k (attempt_lines mf (recipients addrs)))
  /\ (exists evs k,
         trace (snd (Common.to_attempt Umailesp32.cmd mf addrs s)) = (trace s ++ evs)%list
         /\ (1 <= k)%nat
         /\ writes evs = firstn k (attempt_lines mf (recipients addrs))).
Proof.
  split.
  - destruct (Common.to_attempt Umailesp.cmd mf addrs s) as [r s'] eqn:E.
    exact (to_attempt_writes Umailesp.cmd [EvSleep 300] esp_cmd_effects
             (or_intror eq_refl) mf addrs s r s' E).
  - destruct (Common.to_attempt Umailesp32.cmd mf addrs s) as [r s'] eqn:E.
    exact (to_attempt_writes Umailesp32.cmd [] esp32_cmd_effects
             (or_introl eq_refl) mf addrs s r s' E).
Qed.

(** Failed attempts that are not the last are followed by the back-off and
    the next attempt. *)
Lemma to_loop_skip_failures (exchange : string -> M Reply) mf addrs retries n :
  forall k s e s1 more,
    failed_attempts exchange mf addrs n s = Some (e, s1) ->
    Z.of_nat (k + n) < retries - 1 ->
    Common.to_loop exchange mf addrs retries (map Z.of_nat (seq k (S n)) ++ more) s
    = Common.to_loop exchange mf addrs retries more (logged [EvSleep 5000] s1).
Proof.
  induction n as [|n IH]; intros k s e s1 more;
    cbn [failed_attempts seq map app Common.to_loop]; unfold try_except, bind;
    destruct (Common.to_attempt exchange mf addrs s) as [[r|e1] s2]; try discriminate.
  - intros H Hk; inversion H; subst.
    replace (Z.of_nat k <? retries - 1) with true by (symmetry; apply Z.ltb_lt; lia).
    reflexivity.
  - intros H Hk.
    replace (Z.of_nat k <? retries - 1) with true by (symmetry; apply Z.ltb_lt; lia).
    cbn [sleep log]. apply (IH (S k) _ e s1 more H). lia.
Qed.

Lemma to_first_success (exchange : string -> M Reply) addrs mail_from retries n s e s1 r s' :
  failed_attempts exchange (sender mail_from s) addrs n s = Some (e, s1) ->
  Common.to_attempt exchange (sender mail_from s) addrs (logged [EvSleep 5000] s1)
  = (Ok r, s') ->
  Z.of_nat n + 2 <= retries ->
  Common.to exchange addrs mail_from retries s = (Ok (Some r), s').
Proof.
  intros Hf Ha Hr. unfold Common.to, bind, get_username, Py.range.
  fold (sender mail_from s).
  replace (Z.to_nat retries) with (S n + S (Z.to_nat retries - S (S n)))%nat by lia.
  rewrite seq_app, map_app.
  rewrite (to_loop_skip_failures exchange _ addrs retries n 0 s e s1 _ Hf) by (simpl; lia).
  cbn [seq map Common.to_loop]. unfold try_except, bind. now rewrite Ha.
Qed.

(** X15.  [to] stops at the first attempt that succeeds: when [n + 1]
    attempts in a row have raised, [retries] allows one more, and that one
    gets 354 for DATA, [to] returns its reply at once, having slept the
    back-off once after each failed attempt.  This holds in both files. *)
Theorem to_returns_first_success addrs mail_from retries n s e s1 r s' :
  Z.of_nat n + 2 <= retries ->
  (failed_attempts Umailesp.cmd (sender mail_from s) addrs n s = Some (e, s1) ->
   Common.to_attempt Umailesp.cmd (sender mail_from s) addrs (logged [EvSleep 5000] s1)
   = (Ok r, s') ->
   Umailesp.to addrs mail_from retries s = (Ok (Some r), s')
   /\ count (EvSleep 5000) (trace s')
      = (count (EvSleep 5000) (trace s) + S n)%nat)
  /\ (failed_attempts Umailesp32.cmd (sender mail_from s) addrs n s = Some (e, s1) ->
      Common.to_attempt Umailesp32.cmd (sender mail_from s) addrs (logged [EvSleep 5000] s1)
      = (Ok r, s') ->
      Umailesp32.to addrs mail_from retries s = (Ok (Some r), s')
      /\ count (EvSleep 5000) (trace s')
         = (count (EvSleep 5000) (trace s) + S n)%nat).
Proof.
  intros Hr. split; intros Hf Ha.
  - split; [exact (to_first_success _ _ _ _ _ _ _ _ _ _ Hf Ha Hr)|].
    apply (to_attempt_counts Umailesp.cmd [EvSleep 300] esp_cmd_effects
             (or_intror eq_refl)) in Ha as [_ Hs].
    apply (failed_attempts_counts Umailesp.cmd [EvSleep 300] esp_cmd_effects
             (or_intror eq_refl)) in Hf as [_ Hc].
    rewrite Hs. unfold logged; cbn [trace]. rewrite count_app, Hc. simpl. lia.
  - split; [exact (to_first_success _ _ _ _ _ _ _ _ _ _ Hf Ha Hr)|].
    apply (to_attempt_counts Umailesp32.cmd [] esp32_cmd_effects
             (or_introl eq_refl)) in Ha as [_ Hs].
    apply (failed_attempts_counts Umailesp32.cmd [] esp32_cmd_effects
             (or_introl eq_refl)) in Hf as [_ Hc].
    rewrite Hs. unfold logged; cbn [trace]. rewrite count_app, Hc. simpl. lia.
Qed.

Lemma to_returns_first_success_witness :
  (Umailesp.to (AddrStr "a@y") (Some "me@x") 3 (fresh busy_then_ok_server)
   = (Ok (Some (354, ["go ahead"])),
      logged [EvWrite (mail_line "me@x"); EvSleep 300; EvSleep 5000;
              EvWrite (mail_line "me@x"); EvSleep 300;
              EvWrite (rcpt_line "a@y"); EvSleep 300;
              EvWrite data_line; EvSleep 300]
        (fresh EmptyString))
   /\ count (EvSleep 5000)
        (trace (logged [EvWrite (mail_line "me@x"); EvSleep 300; EvSleep 5000;
                        EvWrite (mail_line "me@x"); EvSleep 300;
                        EvWrite (rcpt_line "a@y"); EvSleep 300;
                        EvWrite data_line; EvSleep 300]
                  (fresh EmptyString)))
      = (count (EvSleep 5000) (trace (fresh busy_then_ok_server)) + 1)%nat)
  /\ (Umailesp32.to (AddrStr "a@y") (Some "me@x") 3 (fresh busy_then_ok_server32)
      = (Ok (Some (354, ["go ahead"])),
         logged [EvWrite (mail_line "me@x"); EvSleep 5000;
                 EvWrite (mail_line "me@x"); EvWrite (rcpt_line "a@y"); EvWrite data_line]
           (fresh EmptyString))
      /\ count (EvSleep 5000)
           (trace (logged [EvWrite (mail_line "me@x"); EvSleep 5000;
                           EvWrite (mail_line "me@x"); EvWrite (rcpt_line "a@y");
                           EvWrite data_line]
                     (fresh EmptyString)))
         = (count (EvSleep 5000) (trace (fresh busy_then_ok_server32)) + 1)%nat).
Proof.
  split.
  - apply (proj1 (to_returns_first_success (AddrStr "a@y") (Some "me@x") 3 0
                    (fresh busy_then_ok_server)
                    (Exception "Sender refused: 421, ['Busy']")
                    (logged [EvWrite (mail_line "me@x"); EvSleep 300]
                       (fresh busy_then_ok_tail))
                    (354, ["go ahead"])
                    (logged [EvWrite (mail_line "me@x"); EvSleep 300; EvSleep 5000;
                             EvWrite (mail_line "me@x"); EvSleep 300;
                             EvWrite (rcpt_line "a@y"); EvSleep 300;
                             EvWrite data_line; EvSleep 300]
                       (fresh EmptyString))
                    ltac:(lia))); vm_compute; reflexivity.
  - apply (proj2 (to_returns_first_success (AddrStr "a@y") (Some "me@x") 3 0
                    (fresh busy_then_ok_server32)
                    (Exception "Sender refused: 421, ['Busy']")
                    (logged [EvWrite (mail_line "me@x")] (fresh busy_then_ok_tail32))
                    (354, ["go ahead"])
                    (logged [EvWrite (mail_line "me@x"); EvSleep 5000;
                             EvWrite (mail_line "me@x"); EvWrite (rcpt_line "a@y");
                             EvWrite data_line]
                       (fresh EmptyString))
                    ltac:(lia))); vm_compute; reflexivity.
Defined.

(** ** [send]: what it writes, returns and raises *)

Lemma digit_not_space c : is_digit c = true -> Py.isspace c = false.
Proof. intros H. digit_cases H; reflexivity. Qed.

Lemma digit_ascii c : is_digit c = true -> Py.in_range 0 127 c = true.
Proof. intros H. digit_cases H; reflexivity. Qed.

Lemma crlf_is_space ch : Py.mem_char ch Py.CRLF = true -> Py.isspace ch = true.
Proof.
  cbn [Py.mem_char Py.CRLF]. intros Hch.
  destruct (Ascii.eqb_spec ch Py.CR) as [E|_]; [rewrite E; reflexivity|].
  destruct (Ascii.eqb_spec ch Py.LF) as [E|_]; [rewrite E; reflexivity | discriminate].
Qed.

Lemma trimmed_inv text :
  trimmed text = true ->
  Py.lstrip_with Py.isspace text = text /\ Py.rstrip_with Py.isspace text = text.
Proof.
  unfold trimmed. intros H. apply andb_true_iff in H as [Hf Hl].
  apply negb_true_iff in Hf. apply negb_true_iff in Hl.
  split; [now apply lstrip_with_first | now apply rstrip_with_last].
Qed.

(** The reply line of [send] in umailesp.py, stripped, splits into the code
    and the text. *)
Lemma strip_ws_final_line code text :
  is_code code = true -> trimmed text = true ->
  Py.is_empty (Py.strip_ws (final_line code text)) = false
  /\ Py.take 3 (Py.strip_ws (final_line code text)) = code
  /\ Py.drop 4 (Py.strip_ws (final_line code text)) = text
  /\ Py.utf8_valid (Py.strip_ws (final_line code text)) = Py.utf8_valid text.
Proof.
  intros Hcode Htrim. destruct (trimmed_inv text Htrim) as [Hl Hr].
  apply is_code_inv in Hcode as (a & b & d & -> & Ha & Hb & Hd).
  unfold final_line, Py.strip_ws.
  change (String a (String b (String d EmptyString)) ++ String " " (text ++ Py.CRLF))
    with (String a (String b (String d (String " " text))) ++ Py.CRLF).
  rewrite (rstrip_with_app _ _ _ crlf_is_space).
  rewrite !rstrip_with_keep by (now apply digit_not_space).
  assert (V : forall t, Py.utf8_valid (String a (String b (String d (String " " t))))
                        = Py.utf8_valid t).
  { intros t. unfold Py.utf8_valid. cbn [Py.utf8_scan].
    now rewrite (digit_ascii a Ha), (digit_ascii b Hb), (digit_ascii d Hd). }
  destruct text as [|t0 text].
  - cbn. rewrite (digit_not_space a Ha). repeat split.
    unfold Py.utf8_valid. cbn [Py.utf8_scan].
    now rewrite (digit_ascii a Ha), (digit_ascii b Hb), (digit_ascii d Hd).
  - rewrite rstrip_with_nonempty; rewrite Hr; [|discriminate].
    cbn [Py.lstrip_with]. rewrite (digit_not_space a Ha). repeat split. apply V.
Qed.

Lemma strip_ws_text_line text :
  trimmed text = true -> Py.strip_ws (text ++ Py.CRLF) = text.
Proof.
  intros Htrim. destruct (trimmed_inv text Htrim) as [Hl Hr]. unfold Py.strip_ws.
  now rewrite (rstrip_with_app _ _ _ crlf_is_space), Hr.
Qed.

Lemma split_final_line code text rest :
  is_code code = true -> one_line text = true ->
  split_line (final_line code text ++ rest) = (final_line code text, rest).
Proof.
  intros Hcode Htext. unfold final_line.
  replace ((code ++ String " " (text ++ Py.CRLF)) ++ rest)
    with ((code ++ String " " (text ++ String Py.CR EmptyString)) ++ String Py.LF rest).
  2:{ rewrite !str_app_assoc. simpl. now rewrite !str_app_assoc. }
  rewrite split_line_one_line.
  - f_equal. rewrite str_app_assoc. simpl. now rewrite str_app_assoc.
  - rewrite one_line_app, (one_line_code code Hcode). simpl.
    change (String " " (text ++ String Py.CR EmptyString))
      with (String " " EmptyString ++ (text ++ String Py.CR EmptyString)).
    now rewrite !one_line_app, Htext.
Qed.

Lemma esp_send_unfold content mime s :
  Umailesp.send content mime s =
  let s2 := set_inbuf (snd (split_line (inbuf s))) (logged (esp_send_events content mime) s) in
  let line := Py.strip_ws (fst (split_line (inbuf s))) in
  if Py.utf8_valid line
  then if Py.is_empty line then (Raise (Exception "No SMTP send response"), s2)
       else match Py.int (Py.take 3 line) with
            | None => (Raise (ValueError (Py.take 3 line)), s2)
            | Some code => (Ok (code, Py.drop 4 line), s2)
            end
  else (Raise (UnicodeError line), s2).
Proof.
  unfold Umailesp.send, Umailesp.write, bind, sock_write, sleep, log, esp_send_events, decode.
  destruct mime, content as [|ch content]; cbn [negb Py.is_empty ret app];
    rewrite sock_readline_eq, ?logged_logged; cbn [app];
    change (inbuf (logged _ s)) with (inbuf s); cbv zeta;
    destruct (Py.utf8_valid (Py.strip_ws (fst (split_line (inbuf s))))); try reflexivity;
    unfold ret at 1; cbv beta iota;
    destruct (Py.is_empty (Py.strip_ws (fst (split_line (inbuf s))))); try reflexivity;
    destruct (Py.int _); reflexivity.
Qed.

Lemma esp32_send_unfold content mime s :
  Umailesp32.send content mime s =
  let s2 := set_inbuf (snd (split_line (inbuf s))) (logged (esp32_send_events content mime) s) in
  let line := fst (split_line (inbuf s)) in
  if Py.is_empty line then (Raise (Exception "No SMTP send response"), s2)
  else match Py.int (Py.take 3 line) with
       | None => (Raise (ValueError (Py.take 3 line)), s2)
       | Some code =>
           let resp := Py.strip_ws (Py.drop 4 line) in
           if Py.utf8_valid resp then (Ok (code, resp), s2)
           else (Raise (UnicodeError resp), s2)
       end.
Proof.
  unfold Umailesp32.send, Umailesp32.write, bind, sock_write, log, esp32_send_events, decode.
  destruct mime, content as [|ch content]; cbn [negb Py.is_empty ret app];
    rewrite sock_readline_eq, ?logged_logged; cbn [app];
    change (inbuf (logged _ s)) with (inbuf s); cbv zeta;
    destruct (Py.is_empty (fst (split_line (inbuf s)))); try reflexivity;
    destruct (Py.int _); try reflexivity;
    destruct (Py.utf8_valid _); reflexivity.
Qed.

Lemma send_events_wire content mime :
  wire (esp_send_events content mime) = esp_send_wire content mime
  /\ wire (esp32_send_events content mime) = esp32_send_wire content mime.
Proof. destruct mime, content; split; reflexivity. Qed.

(** X16.  [send] does not judge the final status: for a reply line
    [CCC text], the text being well-formed UTF-8, it returns the pair of CCC
    and the text whatever the code, a failure code included.  It reads that
    one line only, and it has written the content and the DATA terminator,
    after the MIME preamble when that was asked for and nothing before them
    otherwise.  This holds in both files. *)
Theorem send_returns_any_status content mime code text rest s :
  is_code code = true -> one_line text = true -> trimmed text = true ->
  Py.utf8_valid text = true ->
  inbuf s = final_line code text ++ rest ->
  (Umailesp.send content mime s
   = (Ok (code_value code, text),
      set_inbuf rest (logged (esp_send_events content mime) s))
   /\ wire (esp_send_events content mime) = esp_send_wire content mime)
  /\ (Umailesp32.send content mime s
      = (Ok (code_value code, text),
         set_inbuf rest (logged (esp32_send_events content mime) s))
      /\ wire (esp32_send_events content mime) = esp32_send_wire content mime).
Proof.
  intros Hcode Htext Htrim Hvalid Hin.
  destruct (strip_ws_final_line code text Hcode Htrim) as (He & Ht & Hd & Hv).
  split; (split; [|apply send_events_wire]).
  - rewrite esp_send_unfold, Hin, (split_final_line code text rest Hcode Htext).
    cbn [fst snd]. cbv zeta. rewrite Hv, Hvalid, He, Ht, Hd, (int_code code Hcode).
    reflexivity.
  - rewrite esp32_send_unfold, Hin, (split_final_line code text rest Hcode Htext).
    cbn [fst snd]. cbv zeta.
    pose proof (int_code code Hcode) as Hint.
    apply is_code_inv in Hcode as (a & b & d & -> & _).
    unfold final_line. cbn [append Py.is_empty Py.take Py.drop].
    change (Py.take 0 _) with EmptyString. rewrite Hint.
    now rewrite (strip_ws_text_line text Htrim), Hvalid.
Qed.

Lemma send_returns_any_status_witness :
  (Umailesp.send "Hello" false (fresh (final_line "554" "Transaction failed" ++ "next"))
   = (Ok (code_value "554", "Transaction failed"),
      set_inbuf "next"
        (logged (esp_send_events "Hello" false)
           (fresh (final_line "554" "Transaction failed" ++ "next"))))
   /\ wire (esp_send_events "Hello" false) = esp_send_wire "Hello" false)
  /\ (Umailesp32.send "Hello" false (fresh (final_line "554" "Transaction failed" ++ "next"))
      = (Ok (code_value "554", "Transaction failed"),
         set_inbuf "next"
           (logged (esp32_send_events "Hello" false)
              (fresh (final_line "554" "Transaction failed" ++ "next"))))
      /\ wire (esp32_send_events "Hello" false) = esp32_send_wire "Hello" false).
Proof.
  apply (send_returns_any_status "Hello" false "554" "Transaction failed" "next");
    reflexivity.
Defined.

(** X17.  When the peer has closed the connection, [send] raises "No SMTP
    send response" in both files, and only after the body and the DATA
    terminator have been written. *)
Theorem send_without_reply content mime s :
  inbuf s = EmptyString ->
  (Umailesp.send content mime s
   = (Raise (Exception "No SMTP send response"), logged (esp_send_events content mime) s)
   /\ wire (esp_send_events content mime) = esp_send_wire content mime)
  /\ (Umailesp32.send content mime s
      = (Raise (Exception "No SMTP send response"),
         logged (esp32_send_events content mime) s)
      /\ wire (esp32_send_events content mime) = esp32_send_wire content mime).
Proof.
  intros Hin. split; (split; [|apply send_events_wire]).
  - rewrite esp_send_unfold, Hin. cbn. unfold set_inbuf, logged. cbn.
    now rewrite Hin.
  - rewrite esp32_send_unfold, Hin. cbn. unfold set_inbuf, logged. cbn.
    now rewrite Hin.
Qed.

Lemma send_without_reply_witness :
  (Umailesp.send "Hello" true (fresh EmptyString)
   = (Raise (Exception "No SMTP send response"),
      logged (esp_send_events "Hello" true) (fresh EmptyString))
   /\ wire (esp_send_events "Hello" true) = esp_send_wire "Hello" true)
  /\ (Umailesp32.send "Hello" true (fresh EmptyString)
      = (Raise (Exception "No SMTP send response"),
         logged (esp32_send_events "Hello" true) (fresh EmptyString))
      /\ wire (esp32_send_events "Hello" true) = esp32_send_wire "Hello" true).
Proof. apply (send_without_reply "Hello" true (fresh EmptyString)). reflexivity. Defined.

(** ** The constructor: failures and what it never does *)

(** X18.  When [connect] fails, the constructor of either file raises
    "Connect failed" with the platform's message, and has by then only
    stored the user name: nothing was read, written or wrapped. *)
Theorem init_connect_failed b64 host port ssl u p t s m :
  connect_err s = Some m ->
  Umailesp.__init__ b64 host port ssl u p t s
  = (Raise (Exception ("Connect failed: " ++ m)), with_username u s)
  /\ Umailesp32.__init__ b64 host port ssl u p t s
     = (Raise (Exception ("Connect failed: " ++ m)), with_username u s).
Proof.
  intros Hc. destruct s as [u0 i sec tr ce we]. simpl in Hc. subst ce.
  split; reflexivity.
Qed.

Lemma init_connect_failed_witness :
  Umailesp.__init__ toy_b64 "mail.example.com" 587 false (Some "user") (Some "pass") 10
    (mkSession None starttls_server false [] (Some "EHOSTUNREACH") None)
  = (Raise (Exception ("Connect failed: " ++ "EHOSTUNREACH")),
     with_username (Some "user")
       (mkSession None starttls_server false [] (Some "EHOSTUNREACH") None))
  /\ Umailesp32.__init__ toy_b64 "mail.example.com" 587 false (Some "user") (Some "pass") 10
       (mkSession None starttls_server false [] (Some "EHOSTUNREACH") None)
     = (Raise (Exception ("Connect failed: " ++ "EHOSTUNREACH")),
        with_username (Some "user")
          (mkSession None starttls_server false [] (Some "EHOSTUNREACH") None)).
Proof.
  apply (init_connect_failed toy_b64 "mail.example.com" 587 false (Some "user") (Some "pass")
           10 (mkSession None starttls_server false [] (Some "EHOSTUNREACH") None)).
  reflexivity.
Defined.

(** X19.  The constructor logs in only when both the user name and the
    password are given and non-empty: with either of them missing or empty
    it behaves, in both files, exactly as it does without a password, and
    raises nothing for the missing credential. *)
Theorem init_needs_both_credentials b64 host port ssl u p t :
  (Py.truthy u && Py.truthy p)%bool = false ->
  Umailesp.__init__ b64 host port ssl u p t = Umailesp.__init__ b64 host port ssl u None t
  /\ Umailesp32.__init__ b64 host port ssl u p t
     = Umailesp32.__init__ b64 host port ssl u None t.
Proof.
  intros H.
  assert (T1 : match u, p with
               | Some u0, Some p0 =>
                   if (Py.truthy u && Py.truthy p)%bool
                   then _ <- Umailesp.login b64 u0 p0 ;; ret tt
                   else ret tt
               | _, _ => ret tt
               end = ret tt).
  { rewrite H. now destruct u, p. }
  assert (T2 : match u, p with
               | Some u0, Some p0 =>
                   if (Py.truthy u && Py.truthy p)%bool
                   then _ <- Umailesp32.login b64 u0 p0 ;; ret tt
                   else ret tt
               | _, _ => ret tt
               end = ret tt).
  { rewrite H. now destruct u, p. }
  split.
  - unfold Umailesp.__init__. rewrite T1. now destruct u.
  - unfold Umailesp32.__init__. rewrite T2. now destruct u.
Qed.

Lemma init_needs_both_credentials_witness :
  Umailesp.__init__ toy_b64 "h" 25 false (Some "user") (Some EmptyString) 10
  = Umailesp.__init__ toy_b64 "h" 25 false (Some "user") None 10
  /\ Umailesp32.__init__ toy_b64 "h" 25 false (Some "user") (Some EmptyString) 10
     = Umailesp32.__init__ toy_b64 "h" 25 false (Some "user") None 10.
Proof.
  apply (init_needs_both_credentials toy_b64 "h" 25 false (Some "user") (Some EmptyString) 10).
  reflexivity.
Defined.

(** X20.  The constructor sends nothing until it has read a greeting with
    status 220: whenever the first three characters of the greeting are not
    read as 220 (wrong status, malformed line, or no line at all), it
    raises, and the writes of the session are those from before.  This holds
    in both files. *)
Theorem init_sends_nothing_before_220 b64 host port ssl u p t s :
  (Py.int (Py.take 3 (Py.rstrip Py.CRLF (fst (split_line (inbuf s))))) <> Some 220 ->
   writes (trace (snd (Umailesp.__init__ b64 host port ssl u p t s))) = writes (trace s)
   /\ exists e, fst (Umailesp.__init__ b64 host port ssl u p t s) = Raise e)
  /\ (Py.int (Py.take 3 (inbuf s)) <> Some 220 ->
      writes (trace (snd (Umailesp32.__init__ b64 host port ssl u p t s))) = writes (trace s)
      /\ exists e, fst (Umailesp32.__init__ b64 host port ssl u p t s) = Raise e).
Proof.
  destruct s as [u0 i sec tr ce we]. cbn [inbuf trace]. split; intros H.
  - unfold Umailesp.__init__, bind, try_except, sock_connect, wrap_socket, raise, ret.
    cbn [set_username connect_err wrap_err inbuf trace username secured].
    destruct ce as [m|]; [split; [reflexivity | eexists; reflexivity]|].
    destruct ssl; [destruct we as [m2|]; [split; [reflexivity | eexists; reflexivity]|]|];
      cbv beta iota; cbn [wrap_err username inbuf trace connect_err secured];
      cbv beta iota; rewrite sock_readline_eq; cbn [inbuf set_inbuf fst snd];
      (destruct (Py.is_empty (fst (split_line i)));
       [|destruct (Py.int (Py.take 3 (Py.rstrip Py.CRLF (fst (split_line i))))) as [code|];
         [destruct (code =? 220) eqn:E;
          [apply Z.eqb_eq in E; subst; now destruct H|cbn [negb]]|]]);
      cbn [snd fst trace]; (split; [|eexists; reflexivity]);
      unfold set_inbuf; cbn [trace]; rewrite ?writes_app; simpl;
      now rewrite ?List.app_nil_r.
  - unfold Umailesp32.__init__, bind, try_except, sock_connect, wrap_socket, raise, ret.
    cbn [set_username connect_err wrap_err inbuf trace username secured sock_read].
    destruct ce as [m|]; [split; [reflexivity | eexists; reflexivity]|].
    destruct we as [m|]; [split; [reflexivity | eexists; reflexivity]|].
    cbv beta iota zeta. cbn [wrap_err username inbuf trace connect_err secured].
    cbv beta iota. unfold sock_read. cbn [inbuf].
    destruct (Py.int (Py.take 3 i)) as [code|];
      [rewrite sock_readline_eq; cbn [inbuf set_inbuf fst snd];
       destruct (code =? 220) eqn:E;
       [apply Z.eqb_eq in E; subst; now destruct H|cbn [negb]]|];
      cbn [snd fst trace]; (split; [|eexists; reflexivity]);
      unfold set_inbuf; cbn [trace]; rewrite ?writes_app; simpl;
      now rewrite ?List.app_nil_r.
Qed.

Lemma init_sends_nothing_before_220_witness :
  (writes (trace (snd (Umailesp.__init__ toy_b64 "mail.example.com" 587 false
                         (Some "user") (Some "pass") 10
                         (fresh (final_line "554" "No SMTP service here")))))
   = writes (trace (fresh (final_line "554" "No SMTP service here")))
   /\ exists e, fst (Umailesp.__init__ toy_b64 "mail.example.com" 587 false
                       (Some "user") (Some "pass") 10
                       (fresh (final_line "554" "No SMTP service here"))) = Raise e)
  /\ (writes (trace (snd (Umailesp32.__init__ toy_b64 "mail.example.com" 465 true
                            (Some "user") (Some "pass") 10
                            (fresh (final_line "554" "No SMTP service here")))))
      = writes (trace (fresh (final_line "554" "No SMTP service here")))
      /\ exists e, fst (Umailesp32.__init__ toy_b64 "mail.example.com" 465 true
                          (Some "user") (Some "pass") 10
                          (fresh (final_line "554" "No SMTP service here"))) = Raise e).
Proof.
  split.
  - apply (proj1 (init_sends_nothing_before_220 toy_b64 "mail.example.com" 587 false
                    (Some "user") (Some "pass") 10
                    (fresh (final_line "554" "No SMTP service here")))).
    vm_compute. discriminate.
  - apply (proj2 (init_sends_nothing_before_220 toy_b64 "mail.example.com" 465 true
                    (Some "user") (Some "pass") 10
                    (fresh (final_line "554" "No SMTP service here")))).
    vm_compute. discriminate.
Defined.

(** ** The constructor and TLS *)

Lemma bind_run {A B} (c : M A) (k : A -> M B) s :
  bind c k s = match c s with
               | (Ok a, s') => k a s'
               | (Raise e, s') => (Raise e, s')
               end.
Proof. reflexivity. Qed.

Lemma no_wrap_refl s : no_wrap s s.
Proof. split; [reflexivity|]. exists []. now rewrite List.app_nil_r. Qed.

Lemma no_wrap_trans s1 s2 s3 : no_wrap s1 s2 -> no_wrap s2 s3 -> no_wrap s1 s3.
Proof.
  intros (Hs & e1 & H1 & N1) (Hs' & e2 & H2 & N2). split; [congruence|].
  exists (e1 ++ e2)%list. split; [now rewrite H2, H1, List.app_assoc|].
  rewrite List.in_app_iff. tauto.
Qed.

Lemma no_wrap_read s s' : only_read s s' -> no_wrap s s'.
Proof.
  intros H. apply only_read_fields in H as (_ & Hs & Ht & _).
  split; [exact Hs|]. exists []. now rewrite List.app_nil_r.
Qed.

Lemma keeps_ret {A} (a : A) : keeps (ret a).
Proof. intros s r s' H. inversion H. apply no_wrap_refl. Qed.

Lemma keeps_raise {A} e : keeps (@raise A e).
Proof. intros s r s' H. inversion H. apply no_wrap_refl. Qed.

Lemma keeps_bind {A B} (c : M A) (k : A -> M B) :
  keeps c -> (forall a, keeps (k a)) -> keeps (bind c k).
Proof.
  intros Hc Hk s r s'. rewrite bind_run.
  destruct (c s) as [[a|e] s1] eqn:E; apply Hc in E.
  - intros H. apply Hk in H. eapply no_wrap_trans; eassumption.
  - intros H. inversion H. subst. exact E.
Qed.

Lemma keeps_readline : keeps sock_readline.
Proof.
  intros s r s'. rewrite sock_readline_eq. intros H. inversion H.
  now apply no_wrap_read.
Qed.

Lemma keeps_read n : keeps (sock_read n).
Proof. intros s r s' H. inversion H. now apply no_wrap_read. Qed.

Lemma keeps_set_username u : keeps (set_username u).
Proof.
  intros s r s' H. inversion H. split; [reflexivity|].
  exists []. simpl. now rewrite List.app_nil_r.
Qed.

Lemma keeps_esp_cmd c : keeps (Umailesp.cmd c).
Proof.
  intros s r s' H. apply esp_cmd_cases in H as [H _].
  apply only_read_fields in H as (_ & Hs & Ht & _).
  split; [exact Hs|]. exists (esp_cmd_events c). split; [exact Ht|].
  unfold esp_cmd_events. destruct (String.eqb c _); simpl; intuition discriminate.
Qed.

Lemma keeps_esp32_cmd c : keeps (Umailesp32.cmd c).
Proof.
  intros s r s' H. apply esp32_cmd_cases in H as [H _].
  apply only_read_fields in H as (_ & Hs & Ht & _).
  split; [exact Hs|]. exists [EvWrite (c ++ Py.CRLF)]. split; [exact Ht|].
  simpl; intuition discriminate.
Qed.

Ltac keeps_step :=
  first [ apply keeps_ret | apply keeps_raise | apply keeps_readline | apply keeps_read
        | apply keeps_esp_cmd | apply keeps_esp32_cmd | apply keeps_set_username
        | assumption
        | apply keeps_bind; [|intros ?]
        | match goal with
          | |- keeps (match ?x with (_, _) => _ end) => destruct x
          | |- keeps (if ?b then _ else _) => destruct b
          | |- keeps (match ?x with Some _ => _ | None => _ end) => destruct x
          | |- keeps (match ?x with nil => _ | cons _ _ => _ end) => destruct x
          end ].

Lemma keeps_esp_login b64 u p : keeps (Umailesp.login b64 u p).
Proof. unfold Umailesp.login. repeat keeps_step. Qed.

Lemma keeps_esp32_login b64 u p : keeps (Umailesp32.login b64 u p).
Proof. unfold Umailesp32.login. repeat keeps_step. Qed.

Lemma after_upgrade s sf :
  no_wrap (upgraded s) sf ->
  secured sf = true
  /\ exists evs, trace sf = (trace s ++ EvWrap :: evs)%list /\ ~ In EvWrap evs.
Proof.
  intros (Hs & evs & Ht & N). split; [exact Hs|].
  exists evs. split; [|exact N]. rewrite Ht. cbn [upgraded trace].
  now rewrite <- List.app_assoc.
Qed.

(** X21.  Direct TLS.  Once connected, the constructor of umailesp.py called
    with [use_ssl] true, and the constructor of umailesp32.py whatever it is
    called with, wrap the socket before anything is read or written.  When
    the wrap fails they raise at once (umailesp.py its "SSL wrap failed",
    umailesp32.py the platform's own error) with nothing exchanged; when it
    succeeds the session ends secured, every event of the constructor comes
    after the wrap, and there is no second wrap. *)
Theorem init_direct_tls b64 host port ssl u p t s :
  connect_err s = None ->
  match wrap_err s with
  | Some m =>
      Umailesp.__init__ b64 host port true u p t s
      = (Raise (Exception ("SSL wrap failed: " ++ m)), with_username u s)
      /\ Umailesp32.__init__ b64 host port ssl u p t s
         = (Raise (OSError m), with_username u s)
  | None =>
      (secured (snd (Umailesp.__init__ b64 host port true u p t s)) = true
       /\ exists evs, trace (snd (Umailesp.__init__ b64 host port true u p t s))
                      = (trace s ++ EvWrap :: evs)%list
                      /\ ~ In EvWrap evs)
      /\ (secured (snd (Umailesp32.__init__ b64 host port ssl u p t s)) = true
          /\ exists evs, trace (snd (Umailesp32.__init__ b64 host port ssl u p t s))
                         = (trace s ++ EvWrap :: evs)%list
                         /\ ~ In EvWrap evs)
  end.
Proof.
  intros Hc. destruct s as [u0 i sec tr ce we]. simpl in Hc. subst ce.
  cbn [wrap_err]. destruct we as [m|]; [split; reflexivity|].
  pose proof (keeps_esp_login b64) as KL. pose proof (keeps_esp32_login b64) as KL32.
  split.
  - unfold Umailesp.__init__. rewrite bind_run. cbn [set_username]. cbv beta iota.
    rewrite bind_run. unfold try_except at 1, sock_connect.
    cbn [connect_err]. cbv beta iota.
    rewrite bind_run. unfold try_except at 1, wrap_socket.
    cbn [connect_err wrap_err username inbuf secured trace].
    cbv beta iota. cbn [negb andb].
    match goal with
    | |- secured (snd (?T ?S)) = _ /\ _ =>
        change S with (upgraded (mkSession u i sec tr None None));
        apply (after_upgrade (mkSession u i sec tr None None));
        assert (K : keeps T) by repeat keeps_step;
        apply (K _ (fst (T (upgraded (mkSession u i sec tr None None)))));
        apply surjective_pairing
    end.
  - unfold Umailesp32.__init__. cbv zeta. rewrite bind_run. cbn [set_username].
    cbv beta iota.
    rewrite bind_run. unfold try_except at 1, sock_connect.
    cbn [connect_err]. cbv beta iota.
    rewrite bind_run. unfold wrap_socket.
    cbn [connect_err wrap_err username inbuf secured trace].
    cbv beta iota. cbn [negb andb].
    match goal with
    | |- secured (snd (?T ?S)) = _ /\ _ =>
        change S with (upgraded (mkSession u i sec tr None None));
        apply (after_upgrade (mkSession u i sec tr None None));
        assert (K : keeps T) by repeat keeps_step;
        apply (K _ (fst (T (upgraded (mkSession u i sec tr None None)))));
        apply surjective_pairing
    end.
Qed.

Lemma init_direct_tls_witness :
  (secured (snd (Umailesp.__init__ toy_b64 "mail.example.com" 465 true
                   (Some "user") (Some "pass") 10 (fresh auth_server))) = true
   /\ exists evs, trace (snd (Umailesp.__init__ toy_b64 "mail.example.com" 465 true
                                (Some "user") (Some "pass") 10 (fresh auth_server)))
                  = (trace (fresh auth_server) ++ EvWrap :: evs)%list
                  /\ ~ In EvWrap evs)
  /\ (secured (snd (Umailesp32.__init__ toy_b64 "mail.example.com" 465 false
                      (Some "user") (Some "pass") 10 (fresh auth_server))) = true
      /\ exists evs, trace (snd (Umailesp32.__init__ toy_b64 "mail.example.com" 465 false
                                   (Some "user") (Some "pass") 10 (fresh auth_server)))
                     = (trace (fresh auth_server) ++ EvWrap :: evs)%list
                     /\ ~ In EvWrap evs).
Proof.
  exact (init_direct_tls toy_b64 "mail.example.com" 465 false (Some "user") (Some "pass") 10
           (fresh auth_server) eq_refl).
Defined.





(** X23.  No TLS in umailesp.py.  Called without direct TLS on a server
    whose EHLO reply does not offer STARTTLS, the constructor does not stop:
    it goes on over the stream as it is, and with both credentials given it
    runs [login] there, whose outcome is the constructor's. *)
Theorem esp_init_without_starttls b64 host port u p t s greeting rest resp s2 :
  connect_err s = None ->
  split_line (inbuf s) = (greeting, rest) ->
  Py.int (Py.take 3 (Py.rstrip Py.CRLF greeting)) = Some 220 ->
  Umailesp.cmd ehlo_command (set_inbuf rest (with_username u s)) = (Ok (250, resp), s2) ->
  Py.mem CMD_STARTTLS resp = false ->
  secured s2 = secured s
  /\ Umailesp.__init__ b64 host port false u p t s
     = match u, p with
       | Some u0, Some p0 =>
           if (Py.truthy u && Py.truthy p)%bool
           then (_ <- Umailesp.login b64 u0 p0 ;; ret tt) s2
           else (Ok tt, s2)
       | _, _ => (Ok tt, s2)
       end.
Proof.
  intros Hc Hl Hg He Hm.
  assert (Hne : Py.is_empty greeting = false).
  { destruct greeting; [vm_compute in Hg; discriminate | reflexivity]. }
  split.
  { apply esp_cmd_grows in He as (H1 & _). exact H1. }
  unfold Umailesp.__init__, bind, try_except, sock_connect. cbn [set_username].
  change (mkSession u (inbuf s) (secured s) (trace s) (connect_err s) (wrap_err s))
    with (with_username u s).
  change (connect_err (with_username u s)) with (connect_err s). rewrite Hc.
  cbn [ret]. rewrite sock_readline_eq.
  change (inbuf (with_username u s)) with (inbuf s). rewrite Hl. cbn [fst snd].
  rewrite Hne, Hg. change (negb (220 =? 220)) with false. cbv beta iota.
  change (CMD_EHLO ++ " " ++ LOCAL_DOMAIN) with ehlo_command.
  rewrite He. change (negb (250 =? 250)) with false. cbv beta iota.
  rewrite Hm. cbn [negb andb]. cbv beta iota.
  destruct u as [u0|]; [destruct p as [p0|]|]; try reflexivity.
  destruct (Py.truthy (Some u0) && Py.truthy (Some p0))%bool; reflexivity.
Qed.

Lemma esp_init_without_starttls_witness :
  secured (mkSession (Some "user") auth_server false
             [EvWrite (ehlo_command ++ Py.CRLF); EvSleep 300] None None)
  = secured (fresh plain_auth_server)
  /\ Umailesp.__init__ toy_b64 "mail.example.com" 25 false (Some "user") (Some "pass") 10
       (fresh plain_auth_server)
     = (_ <- Umailesp.login toy_b64 "user" "pass" ;; ret tt)
         (mkSession (Some "user") auth_server false
            [EvWrite (ehlo_command ++ Py.CRLF); EvSleep 300] None None).
Proof.
  apply (esp_init_without_starttls toy_b64 "mail.example.com" 25 (Some "user")
           (Some "pass") 10 (fresh plain_auth_server)
           (final_line "220" "mail.example.com ESMTP")
           (final_line "250" "AUTH PLAIN LOGIN" ++ auth_server)
           ["AUTH PLAIN LOGIN"]
           (mkSession (Some "user") auth_server false
              [EvWrite (ehlo_command ++ Py.CRLF); EvSleep 300] None None));
    vm_compute; reflexivity.
Defined.
